(** * Keysight_Oscope.py: the binary-block step of [saveImage] and [IDNCheck]

    A shallow embedding of the two pieces of [Keysight_DSOX1204G] that carry
    logic: the definite-length block header parsing done by [saveImage]
    between [read_raw] and the file write, and the connectivity check
    [IDNCheck] with its bare [except].

    Python values are modelled as follows: [bytes] is [list byte]
    (immutable, compared by content), [int] is [Z] (unbounded), [str] is
    [string], a raised exception is the [Raise] case of [result]. *)

From Stdlib Require Import ZArith List Bool Lia String.
From Stdlib Require Import Strings.Byte.
From Stdlib Require Import DecimalFacts DecimalPos DecimalN.
Import ListNotations.

Local Open Scope Z_scope.

(** ** Python values, exceptions and results *)

Definition bytes := list byte.

(** [b"..."] literals, written [B "..."]. *)
Definition B (s : string) : bytes := list_byte_of_string s.

(** The exceptions that the modelled code can meet.  [ValueError] carries
    the literal that [int()] refused (the text of its message);
    [AttributeError] the missing attribute; [UnboundLocalError] the local
    read before assignment; [VisaIOError] the status code reported by the
    transport; [OSError] the errno of a failed [open]. *)
Inductive exn : Type :=
| ValueError (literal : bytes)
| AttributeError (attr : string)
| UnboundLocalError (name : string)
| VisaIOError (status : Z)
| OSError (errno : Z).

Inductive result (A : Type) : Type :=
| Ok (a : A)
| Raise (e : exn).

Arguments Ok {A} a.
Arguments Raise {A} e.

Definition bind {A C} (r : result A) (k : A -> result C) : result C :=
  match r with
  | Ok a => k a
  | Raise e => Raise e
  end.

Declare Scope py_scope.
Delimit Scope py_scope with py.
Notation "x <- r ;; k" := (bind r (fun x => k))
  (at level 61, r at next level, right associativity) : py_scope.

(** ** Built-ins of [bytes] used by the source *)

Module Py.

Definition len {A} (s : list A) : Z := Z.of_nat (List.length s).

(** Code point of a byte, 0..255. *)
Definition ord (c : byte) : Z := Z.of_N (Byte.to_N c).

Fixpoint bytes_eqb (a c : bytes) : bool :=
  match a, c with
  | [], [] => true
  | x :: a', y :: c' => (ord x =? ord y) && bytes_eqb a' c'
  | _, _ => false
  end.

(** [data.startswith(prefix)]. *)
Definition startswith (data prefix : bytes) : bool :=
  bytes_eqb (firstn (List.length prefix) data) prefix.

(** Index adjustment of a slice bound on a sequence of length [n]: a
    negative bound counts from the end, and the result is clamped to
    [0..n]. *)
Definition adjust (n i : Z) : Z :=
  if i <? 0 then (if i + n <? 0 then 0 else i + n)
  else (if n <=? i then n else i).

(** [s[i:j]]: never raises; empty when the adjusted bounds cross. *)
Definition slice {A} (s : list A) (i j : Z) : list A :=
  let n := len s in
  let lo := adjust n i in
  let hi := adjust n j in
  firstn (Z.to_nat (hi - lo)) (skipn (Z.to_nat lo) s).

(** *** [int(b)] on a [bytes] object, base 10

    Leading ASCII whitespace, an optional sign, decimal digits with single
    underscores allowed between digits, trailing ASCII whitespace, and
    nothing else; anything else is [ValueError].  The interpreter's cap
    on the number of digits of a literal (4300 by default) is left out:
    the source applies [int()] to slices of at most nine bytes. *)

Definition isspace (c : byte) : bool :=
  ((9 <=? ord c) && (ord c <=? 13)) || (ord c =? 32).

Definition isdigit (c : byte) : bool :=
  (48 <=? ord c) && (ord c <=? 57).

Definition is_underscore (c : byte) : bool := ord c =? 95.
Definition is_plus (c : byte) : bool := ord c =? 43.
Definition is_minus (c : byte) : bool := ord c =? 45.

Definition digit_value (c : byte) : Z := ord c - 48.

Fixpoint skip_space (s : bytes) : bytes :=
  match s with
  | c :: t => if isspace c then skip_space t else s
  | [] => []
  end.

(** Sign of the literal and the text after it. *)
Definition take_sign (s : bytes) : Z * bytes :=
  match s with
  | c :: t =>
      if is_plus c then (1, t)
      else if is_minus c then (-1, t)
      else (1, s)
  | [] => (1, [])
  end.

(** The scan over digits and underscores.  [prev_us] tells whether the
    previous character was an underscore, [seen] counts the characters
    consumed so far and [acc] is the value of the digits read so far.
    [None] is a syntax error (doubled or trailing underscore); otherwise
    the value, the number of characters consumed and the rest of the
    text. *)
Fixpoint scan (s : bytes) (prev_us : bool) (seen : nat) (acc : Z)
  : option (Z * nat * bytes) :=
  match s with
  | c :: t =>
      if is_underscore c then
        if prev_us then None else scan t true (S seen) acc
      else if isdigit c then
        scan t false (S seen) (10 * acc + digit_value c)
      else if prev_us then None else Some (acc, seen, s)
  | [] => if prev_us then None else Some (acc, seen, [])
  end.

Definition parse_int (s : bytes) : option Z :=
  let '(sign, body) := take_sign (skip_space s) in
  match body with
  | c :: _ => if is_underscore c then None else
      match scan body false 0%nat 0 with
      | Some (v, seen, rest) =>
          match seen, skip_space rest with
          | S _, [] => Some (sign * v)
          | _, _ => None
          end
      | None => None
      end
  | [] => None
  end.

Definition int (s : bytes) : result Z :=
  match parse_int s with
  | Some v => Ok v
  | None => Raise (ValueError s)
  end.

End Py.

(** ** The block-header step of [saveImage]

    The locals of [saveImage] that the step reads and assigns.  [data] is
    bound by [read_raw] before the step; the three others are unbound on
    entry. *)

Record Locals : Type := mkLocals {
  data : bytes;
  header_length : option Z;
  data_length : option Z;
  binary_data : option bytes
}.

Definition set_header_length (v : Z) (l : Locals) : Locals :=
  mkLocals (data l) (Some v) (data_length l) (binary_data l).
Definition set_data_length (v : Z) (l : Locals) : Locals :=
  mkLocals (data l) (header_length l) (Some v) (binary_data l).
Definition set_binary_data (v : bytes) (l : Locals) : Locals :=
  mkLocals (data l) (header_length l) (data_length l) (Some v).

(** Reading a local: unbound names raise. *)
Definition load {A} (name : string) (v : option A) : result A :=
  match v with
  | Some a => Ok a
  | None => Raise (UnboundLocalError name)
  end.

Local Open Scope py_scope.

(** Lines 221-226: the [if data.startswith(b'#'): ... else: ...] statement
    as a transformer of the locals. *)
Definition block_header_step (l : Locals) : result Locals :=
  if Py.startswith (data l) (B "#") then
    h <- Py.int (Py.slice (data l) 1 2) ;;
    let l := set_header_length h l in
    hl <- load "header_length" (header_length l) ;;
    n <- Py.int (Py.slice (data l) 2 (2 + hl)) ;;
    let l := set_data_length n l in
    hl <- load "header_length" (header_length l) ;;
    dl <- load "data_length" (data_length l) ;;
    Ok (set_binary_data (Py.slice (data l) (2 + hl) (2 + hl + dl)) l)
  else
    Ok (set_binary_data (data l) l).

(** The step seen from [read_raw] to [f.write]: from the bytes received to
    the bytes written. *)
Definition decode (response : bytes) : result bytes :=
  l <- block_header_step (mkLocals response None None None) ;;
  load "binary_data" (binary_data l).

(** ** The instrument session, the object and the file system *)

(** The pyvisa resource held in [self.OS].  Every call goes through the
    link and may raise; it returns the session as the call left it. *)
Class Resource (T : Type) : Type := {
  open_resource : string -> result T;
  write : string -> T -> result unit * T;
  query : string -> T -> result string * T;
  read_raw : T -> result bytes * T
}.

(** The attributes set by [__init__].  [OS] stays unset when [IO_Conf] is
    neither ["LAN"] nor ["USB"]. *)
Record Keysight_DSOX1204G (T : Type) : Type := mkSelf {
  IDN : string;
  USB_Addr : string;
  LAN_Addr : string;
  OS : option T
}.

Arguments mkSelf {T}.
Arguments IDN {T}.
Arguments USB_Addr {T}.
Arguments LAN_Addr {T}.
Arguments OS {T}.

(** The files written so far (latest first) and the paths on which
    [open(path, 'wb')] fails, with the errno it reports. *)
Record Disk : Type := mkDisk {
  files : list (string * bytes);
  open_error : string -> option Z
}.

Record World (T : Type) : Type := mkWorld {
  self : Keysight_DSOX1204G T;
  disk : Disk
}.

Arguments mkWorld {T}.
Arguments self {T}.
Arguments disk {T}.

(** Statements that run against the world: an exception leaves the world
    as it was when it was raised. *)
Definition Run (W A : Type) : Type := W -> result A * W.

Definition ret {W A} (a : A) : Run W A := fun w => (Ok a, w).

Definition seq {W A C} (m : Run W A) (k : A -> Run W C) : Run W C :=
  fun w =>
    match m w with
    | (Ok a, w') => k a w'
    | (Raise e, w') => (Raise e, w')
    end.

(** [try: m except: h] with a bare [except], which catches everything. *)
Definition try_except {W A} (m : Run W A) (h : Run W A) : Run W A :=
  fun w =>
    match m w with
    | (Ok a, w') => (Ok a, w')
    | (Raise _, w') => h w'
    end.

Definition lift {W A} (r : result A) : Run W A := fun w => (r, w).

Declare Scope run_scope.
Delimit Scope run_scope with run.
Notation "x <~ m ;; k" := (seq m (fun x => k))
  (at level 61, m at next level, right associativity) : run_scope.
Notation "m ;;; k" := (seq m (fun _ => k))
  (at level 61, right associativity) : run_scope.

Local Open Scope string_scope.
Local Open Scope run_scope.

(** The identity string stored in [self.IDN]; it ends with a newline. *)
Definition IDN_text : string :=
  String.append "KEYSIGHT TECHNOLOGIES,DSOX1204G,CN60167508,02.10.2019111333"
    (String (Ascii.ascii_of_nat 10) EmptyString).

Section Instrument.

Context {T : Type} `{Resource T}.

(** [__init__(self, IO_Conf)]; [open_resource] stands for
    [pyvisa.ResourceManager().open_resource]. *)
Definition init (IO_Conf : string) : result (Keysight_DSOX1204G T) :=
  let IDN := IDN_text in
  let USB_Addr := "USB0::10893::918::CN60167508::INSTR" in
  let LAN_Addr := "TCPIP0::k-dx1204g-67508::hislip0::INSTR" in
  if String.eqb IO_Conf "LAN" then
    (os <- open_resource LAN_Addr ;;
     Ok (mkSelf IDN USB_Addr LAN_Addr (Some os)))%py
  else if String.eqb IO_Conf "USB" then
    (os <- open_resource USB_Addr ;;
     Ok (mkSelf IDN USB_Addr LAN_Addr (Some os)))%py
  else Ok (mkSelf IDN USB_Addr LAN_Addr None).

(** A call [self.OS.f(...)]: looks [OS] up on the object, runs [f] on
    the session and stores the session back. *)
Definition on_OS {A} (f : T -> result A * T) : Run (World T) A :=
  fun w =>
    match OS (self w) with
    | None => (Raise (AttributeError "OS"), w)
    | Some os =>
        let '(r, os') := f os in
        (r, mkWorld (mkSelf (IDN (self w)) (USB_Addr (self w))
                            (LAN_Addr (self w)) (Some os'))
                    (disk w))
    end.

(** [IDNCheck(self)], lines 50-64. *)
Definition IDNCheck : Run (World T) Z :=
  try_except
    (r <~ on_OS (query "*IDN?") ;;
     fun w => if String.eqb r (IDN (self w)) then ret 1 w else ret 0 w)
    (ret 0).

(** [with open(location, 'wb') as f: f.write(binary_data)]. *)
Definition write_file (location : string) (content : bytes)
  : Run (World T) unit :=
  fun w =>
    match open_error (disk w) location with
    | Some errno => (Raise (OSError errno), w)
    | None =>
        (Ok tt, mkWorld (self w)
                  (mkDisk ((location, content) :: files (disk w))
                          (open_error (disk w))))
    end.

(** [saveImage(self, location, palette='COLor')], lines 202-230. *)
Definition saveImage (location palette : string) : Run (World T) unit :=
  let command := String.append ":DISPlay:DATA? PNG, " palette in
  on_OS (write command) ;;;
  data <~ on_OS read_raw ;;
  l <~ lift (block_header_step (mkLocals data None None None)) ;;
  binary_data <~ lift (load "binary_data" (binary_data l)) ;;
  write_file location binary_data.

End Instrument.

(** A scripted session, for concrete runs: the commands sent so far and
    the replies the instrument will give, in order. *)
Inductive reply : Type :=
| ReplyText (s : string)
| ReplyRaw (b : bytes)
| ReplyError (status : Z).

Record Scripted : Type := mkScripted {
  sent : list string;
  pending : list reply
}.

(** [VI_ERROR_TMO], reported when nothing answers. *)
Definition VI_ERROR_TMO : Z := -1073807339.

Definition scripted_read (s : Scripted) : result reply * Scripted :=
  match pending s with
  | ReplyError st :: rest => (Raise (VisaIOError st), mkScripted (sent s) rest)
  | r :: rest => (Ok r, mkScripted (sent s) rest)
  | [] => (Raise (VisaIOError VI_ERROR_TMO), s)
  end.

#[export] Instance Scripted_Resource : Resource Scripted := {
  open_resource := fun _ => Ok (mkScripted [] []);
  write := fun cmd s => (Ok tt, mkScripted (cmd :: sent s) (pending s));
  query := fun cmd s =>
    match scripted_read (mkScripted (cmd :: sent s) (pending s)) with
    | (Ok (ReplyText t), s') => (Ok t, s')
    | (Ok (ReplyRaw b), s') => (Ok (string_of_list_byte b), s')
    | (Ok (ReplyError st), s') => (Raise (VisaIOError st), s')
    | (Raise e, s') => (Raise e, s')
    end;
  read_raw := fun s =>
    match scripted_read s with
    | (Ok (ReplyText t), s') => (Ok (list_byte_of_string t), s')
    | (Ok (ReplyRaw b), s') => (Ok b, s')
    | (Ok (ReplyError st), s') => (Raise (VisaIOError st), s')
    | (Raise e, s') => (Raise e, s')
    end
}.

(** A USB session on which nothing answers, and an empty disk. *)
Definition silent_world : World Scripted :=
  mkWorld
    (mkSelf IDN_text "USB0::10893::918::CN60167508::INSTR"
       "TCPIP0::k-dx1204g-67508::hislip0::INSTR" (Some (mkScripted [] [])))
    (mkDisk [] (fun _ => None)).

(** The same with the instrument answering one raw block. *)
Definition answering_world (raw : bytes) : World Scripted :=
  mkWorld
    (mkSelf IDN_text "USB0::10893::918::CN60167508::INSTR"
       "TCPIP0::k-dx1204g-67508::hislip0::INSTR"
       (Some (mkScripted [] [ReplyRaw raw])))
    (mkDisk [] (fun _ => None)).

Local Open Scope list_scope.
Local Open Scope Z_scope.

(** ** Reference definitions for the block format *)

(** The number that a run of ASCII decimal digits denotes: each digit
    shifts what was read so far by one decimal place. *)
Definition decimal_step (acc : Z) (c : byte) : Z :=
  10 * acc + Py.digit_value c.

Definition digits_value (ds : bytes) : Z := fold_left decimal_step ds 0.

Definition all_digits (ds : bytes) : Prop :=
  Forall (fun c => Py.isdigit c = true) ds.

(** The ASCII digit for [d] in 0..9. *)
Definition digit_byte (d : Z) : byte :=
  match Byte.of_N (Z.to_N (48 + d)) with
  | Some c => c
  | None => x30
  end.

Fixpoint bytes_of_uint (d : Decimal.uint) : bytes :=
  match d with
  | Decimal.Nil => []
  | Decimal.D0 d' => digit_byte 0 :: bytes_of_uint d'
  | Decimal.D1 d' => digit_byte 1 :: bytes_of_uint d'
  | Decimal.D2 d' => digit_byte 2 :: bytes_of_uint d'
  | Decimal.D3 d' => digit_byte 3 :: bytes_of_uint d'
  | Decimal.D4 d' => digit_byte 4 :: bytes_of_uint d'
  | Decimal.D5 d' => digit_byte 5 :: bytes_of_uint d'
  | Decimal.D6 d' => digit_byte 6 :: bytes_of_uint d'
  | Decimal.D7 d' => digit_byte 7 :: bytes_of_uint d'
  | Decimal.D8 d' => digit_byte 8 :: bytes_of_uint d'
  | Decimal.D9 d' => digit_byte 9 :: bytes_of_uint d'
  end.

(** [str(n).encode()] for [n >= 0]. *)
Definition str (n : Z) : bytes := bytes_of_uint (N.to_uint (Z.to_N n)).

(** A payload behind a correct definite-length header: ['#'], the digit
    count [H] of the length, the length [L] on [H] digits, the payload. *)
Definition encode (P : bytes) : bytes :=
  let L := Py.len P in
  let field := str L in
  let H := Py.len field in
  B "#" ++ str H ++ field ++ P.

(** A byte in the header where a digit is expected and that is not one:
    the digit-count byte at index 1, or a byte of the length field. *)
Definition non_digit_in_header (response : bytes) : Prop :=
  (exists c, Py.slice response 1 2 = [c] /\ Py.isdigit c = false) \/
  (exists h c, Py.int (Py.slice response 1 2) = Ok h /\
               In c (Py.slice response 2 (2 + h)) /\ Py.isdigit c = false).

(** The bytes that [int()] can go over without refusing the literal. *)
Definition int_alphabet (c : byte) : bool :=
  Py.isdigit c || Py.isspace c || Py.is_plus c || Py.is_minus c
  || Py.is_underscore c.

(** ** The command and measurement methods

    Formatting inside the f-strings: [str()] of an [int] and of a
    [bool]; a [str] argument is inserted as it is. *)

Definition str_int (n : Z) : string :=
  if n <? 0 then ("-" ++ string_of_list_byte (str (- n)))%string
  else string_of_list_byte (str n).

Definition str_bool (b : bool) : string :=
  if b then "True"%string else "False"%string.

Section Commands.

Context {T : Type} `{Resource T}.


(** Lines 66-88. *)
Definition single : Run (World T) unit :=
  let command := ":SINGle"%string in
  on_OS (write command).

Definition run : Run (World T) unit :=
  let command := ":RUN"%string in
  on_OS (write command).

Definition stop : Run (World T) unit :=
  let command := ":STOP"%string in
  on_OS (write command).

(** Lines 90-200.  The default [Suffix='V'] of [channelOffset],
    [channelRange] and [channelScale] is the caller's to pass. *)
Definition channelCoupling (Channel : Z) (Coupling : string)
  : Run (World T) unit :=
  let command :=
    (":CHANnel" ++ str_int Channel ++ ":COUPling " ++ Coupling)%string in
  on_OS (write command).

Definition channelDisplay (Channel : Z) (Value : bool)
  : Run (World T) unit :=
  let command :=
    (":CHANnel" ++ str_int Channel ++ ":DISPLAY " ++ str_bool Value)%string in
  on_OS (write command).

Definition channelInvert (Channel : Z) (Value : bool)
  : Run (World T) unit :=
  let command :=
    (":CHANnel" ++ str_int Channel ++ ":INVert " ++ str_bool Value)%string in
  on_OS (write command).

Definition channelLabel (Channel : Z) (Label : string)
  : Run (World T) unit :=
  let command :=
    (":CHANnel" ++ str_int Channel ++ ":LABel '" ++ Label ++ "'")%string in
  on_OS (write command).

Definition channelOffset (Channel Offset : Z) (Suffix : string)
  : Run (World T) unit :=
  let command :=
    (":CHANnel" ++ str_int Channel ++ ":OFFSet " ++ str_int Offset
       ++ " " ++ Suffix)%string in
  on_OS (write command).

Definition channelProbeAtt (Channel Attenuation : Z)
  : Run (World T) unit :=
  let command :=
    (":CHANnel" ++ str_int Channel ++ ":PROBe "
       ++ str_int Attenuation)%string in
  on_OS (write command).

Definition channelRange (Channel Range : Z) (Suffix : string)
  : Run (World T) unit :=
  let command :=
    (":CHANnel" ++ str_int Channel ++ ":RANGe " ++ str_int Range
       ++ " " ++ Suffix)%string in
  on_OS (write command).

Definition channelScale (Channel Scale : Z) (Suffix : string)
  : Run (World T) unit :=
  let command :=
    (":CHANnel" ++ str_int Channel ++ ":SCALe " ++ str_int Scale
       ++ " " ++ Suffix)%string in
  on_OS (write command).

Definition channelUnits (Channel : Z) (Unit : string)
  : Run (World T) unit :=
  let command :=
    (":CHANnel" ++ str_int Channel ++ ":UNITs " ++ Unit)%string in
  on_OS (write command).

Definition displayLabel (status : string) : Run (World T) unit :=
  let command := (":DISPlay:LABel " ++ status)%string in
  on_OS (write command).

(** Lines 232-238. *)
Definition measClearAll : Run (World T) unit :=
  let command := ":MEASure:CLEar"%string in
  on_OS (write command).

(** Lines 500-518, 531-559 and 571-579: the trigger and generator
    methods whose arguments are [str] or [bool]. *)
Definition triggerMode (mode : string) : Run (World T) unit :=
  let command := (":TRIGger:MODE " ++ mode)%string in
  on_OS (write command).

Definition triggerNoiseReject (status : bool) : Run (World T) unit :=
  let command := (":TRIGger:NREJect " ++ str_bool status)%string in
  on_OS (write command).

Definition triggerSlope (slope : string) : Run (World T) unit :=
  let command := (":TRIGger:EDGE:SLOPe " ++ slope)%string in
  on_OS (write command).

Definition triggerSource (source : string) : Run (World T) unit :=
  let command := (":TRIGger:EDGE:SOURce " ++ source)%string in
  on_OS (write command).

Definition WGenOutput (status : bool) : Run (World T) unit :=
  let command := (":WGEN:OUTPut " ++ str_bool status)%string in
  on_OS (write command).

Definition WGenFunction (signal : string) : Run (World T) unit :=
  let command := (":WGEN:FUNCtion " ++ signal)%string in
  on_OS (write command).

(** Lines 240-478: install the measurement, query it, convert the reply.
    [float] stands for Python's [float()] on the reply text, with [F] the
    type of its results. *)
Section Measurements.

Context {F : Type} (float : string -> result F).

Definition measDutyCycle (source : string) : Run (World T) F :=
  let command := (":MEASure:DUTYcycle " ++ source)%string in
  on_OS (write command) ;;;
  let command := (":MEASure:DUTYcycle? " ++ source)%string in
  dutycycle <~ on_OS (query command) ;;
  lift (float dutycycle).

Definition measFallTime (source : string) : Run (World T) F :=
  let command := (":MEASure:FALLtime " ++ source)%string in
  on_OS (write command) ;;;
  let command := (":MEASure:FALLtime? " ++ source)%string in
  falltime <~ on_OS (query command) ;;
  lift (float falltime).

Definition measRiseTime (source : string) : Run (World T) F :=
  let command := (":MEASure:Risetime " ++ source)%string in
  on_OS (write command) ;;;
  let command := (":MEASure:Risetime? " ++ source)%string in
  risetime <~ on_OS (query command) ;;
  lift (float risetime).

Definition measFrequency (source : string) : Run (World T) F :=
  let command := (":MEASure:FREQuency " ++ source)%string in
  on_OS (write command) ;;;
  let command := (":MEASure:FREQuency? " ++ source)%string in
  frequency <~ on_OS (query command) ;;
  lift (float frequency).

Definition measAmplitude (source : string) : Run (World T) F :=
  let command := (":MEASure:VAMPlitude " ++ source)%string in
  on_OS (write command) ;;;
  let command := (":MEASure:VAMPlitude? " ++ source)%string in
  amplitude <~ on_OS (query command) ;;
  lift (float amplitude).

Definition measAverage (source : string) : Run (World T) F :=
  let command := (":MEASure:VAVerage " ++ source)%string in
  on_OS (write command) ;;;
  let command := (":MEASure:VAVerage? " ++ source)%string in
  average <~ on_OS (query command) ;;
  lift (float average).

Definition measVBase (source : string) : Run (World T) F :=
  let command := (":MEASure:VBASe " ++ source)%string in
  on_OS (write command) ;;;
  let command := (":MEASure:VBASe? " ++ source)%string in
  Vbase <~ on_OS (query command) ;;
  lift (float Vbase).

Definition measVTop (source : string) : Run (World T) F :=
  let command := (":MEASure:VTOP " ++ source)%string in
  on_OS (write command) ;;;
  let command := (":MEASure:VTOP? " ++ source)%string in
  Vtop <~ on_OS (query command) ;;
  lift (float Vtop).

Definition measVMax (source : string) : Run (World T) F :=
  let command := (":MEASure:VMAX " ++ source)%string in
  on_OS (write command) ;;;
  let command := (":MEASure:VMAX? " ++ source)%string in
  Vmax <~ on_OS (query command) ;;
  lift (float Vmax).

Definition measVMin (source : string) : Run (World T) F :=
  let command := (":MEASure:VMIN " ++ source)%string in
  on_OS (write command) ;;;
  let command := (":MEASure:VMIN? " ++ source)%string in
  Vmin <~ on_OS (query command) ;;
  lift (float Vmin).

Definition measVPP (source : string) : Run (World T) F :=
  let command := (":MEASure:VPP " ++ source)%string in
  on_OS (write command) ;;;
  let command := (":MEASure:VPP? " ++ source)%string in
  Vpp <~ on_OS (query command) ;;
  lift (float Vpp).

Definition measVrms (source : string) : Run (World T) F :=
  let command := (":MEASure:VRMS " ++ source)%string in
  on_OS (write command) ;;;
  let command := (":MEASure:VRMS? " ++ source)%string in
  Vrms <~ on_OS (query command) ;;
  lift (float Vrms).

Definition measXMax (source : string) : Run (World T) F :=
  let command := (":MEASure:XMAX " ++ source)%string in
  on_OS (write command) ;;;
  let command := (":MEASure:XMAX? " ++ source)%string in
  X <~ on_OS (query command) ;;
  lift (float X).

Definition measXMin (source : string) : Run (World T) F :=
  let command := (":MEASure:XMIN " ++ source)%string in
  on_OS (write command) ;;;
  let command := (":MEASure:XMIN? " ++ source)%string in
  X <~ on_OS (query command) ;;
  lift (float X).

(** Lines 480-498, 520-529, 561-569 and 581-633: the methods that
    format a [float]; [str_float] stands for [str()] of a [float]. *)
Context (str_float : F -> string).

Definition timeScale (value : F) : Run (World T) unit :=
  let command := (":TIMebase:SCALe " ++ str_float value)%string in
  on_OS (write command).

Definition triggerHoldOFF (time : F) : Run (World T) unit :=
  let command := (":TRIGger:HOLDoff " ++ str_float time)%string in
  on_OS (write command).

Definition triggerlevel (level : F) (source : string)
  : Run (World T) unit :=
  let command :=
    (":TRIGger:EDGE:LEVel " ++ str_float level ++ ", " ++ source)%string in
  on_OS (write command).

Definition WGenFrequency (frequency : F) : Run (World T) unit :=
  let command := (":WGEN:FREQuency " ++ str_float frequency)%string in
  on_OS (write command).

Definition WGenPulseWidth (width : F) : Run (World T) unit :=
  let command :=
    (":WGEN:FUNCtion:PULSe:WIDTh " ++ str_float width)%string in
  on_OS (write command).

Definition WGenRampSymmetry (percent : F) : Run (World T) unit :=
  let command :=
    (":WGEN:FUNCtion:RAMP:SYMMetry " ++ str_float percent)%string in
  on_OS (write command).

Definition WGenSquareDCycle (DCycle : F) : Run (World T) unit :=
  let command :=
    (":WGEN:FUNCtion:SQUare:DCYCle " ++ str_float DCycle)%string in
  on_OS (write command).

Definition WGenAmplitude (amplitude : F) : Run (World T) unit :=
  let command := (":WGEN:VOLTage " ++ str_float amplitude)%string in
  on_OS (write command).

Definition WGenOffset (offset : F) : Run (World T) unit :=
  let command := (":WGEN:VOLTage:OFFSet " ++ str_float offset)%string in
  on_OS (write command).

End Measurements.

End Commands.

(** A world around a scripted session, and the commands that a method
    has sent to it, latest first. *)
Definition scripted_world (s : Scripted) (d : Disk) : World Scripted :=
  mkWorld
    (mkSelf IDN_text "USB0::10893::918::CN60167508::INSTR"
       "TCPIP0::k-dx1204g-67508::hislip0::INSTR" (Some s))
    d.

Definition session_after {A} (m : Run (World Scripted) A) (s : Scripted)
  : option Scripted :=
  OS (self (snd (m (scripted_world s (mkDisk [] (fun _ => None)))))).

(** A link that is down: every call raises the same transport error. *)
Inductive DeadLink : Type := dead (status : Z).

#[export] Instance DeadLink_Resource : Resource DeadLink := {
  open_resource := fun _ => Raise (VisaIOError VI_ERROR_TMO);
  write := fun _ '(dead st) => (Raise (VisaIOError st), dead st);
  query := fun _ '(dead st) => (Raise (VisaIOError st), dead st);
  read_raw := fun '(dead st) => (Raise (VisaIOError st), dead st)
}.

(** ** Concrete runs *)

Example decode_ex1 : decode (B "#15hello world") = Ok (B "hello").
Proof. reflexivity. Qed.
Example decode_ex2 : decode (B "hello") = Ok (B "hello").
Proof. reflexivity. Qed.
Example decode_ex3 : decode (B "#3 -9abcdefgh") = Ok (B "abcd").
Proof. reflexivity. Qed.
Example decode_ex4 : decode (B "#A123") = Raise (ValueError (B "A")).
Proof. reflexivity. Qed.
Example decode_ex5 : decode (B "#41_00xyz") = Ok (B "xyz").
Proof. reflexivity. Qed.
Example decode_ex6 : decode (B "#21_5xyz") = Raise (ValueError (B "1_")).
Proof. reflexivity. Qed.
Example int_ex1 : Py.int (B " +1_0 ") = Ok 10.
Proof. reflexivity. Qed.
Example int_ex2 : Py.int (B "1__0") = Raise (ValueError (B "1__0")).
Proof. reflexivity. Qed.
Example int_ex3 : Py.int (B "- 1") = Raise (ValueError (B "- 1")).
Proof. reflexivity. Qed.
Example int_ex4 : Py.int (B "-007") = Ok (-7).
Proof. reflexivity. Qed.
Example int_ex5 : Py.int [x31; x00] = Raise (ValueError [x31; x00]).
Proof. reflexivity. Qed.
Example slice_ex1 : Py.slice (B "abcdef") (-4) (-1) = B "cde".
Proof. reflexivity. Qed.
Example slice_ex2 : Py.slice (B "abcdef") 4 2 = B "".
Proof. reflexivity. Qed.
Example encode_ex1 : encode (B "abc") = B "#13abc".
Proof. reflexivity. Qed.
Example encode_ex2 : encode (repeat x00 1000) = B "#41000" ++ repeat x00 1000.
Proof. vm_compute. reflexivity. Qed.
Example decode_ex7 :
  decode (B "#41000" ++ repeat x00 1000) = Ok (repeat x00 1000).
Proof. vm_compute. reflexivity. Qed.

(** ** Slices *)

Section Slices.

Context {A : Type}.
Implicit Types s : list A.

Lemma len_nonneg s : 0 <= Py.len s.
Proof. unfold Py.len. lia. Qed.

Lemma len_app s t : Py.len (s ++ t) = Py.len s + Py.len t.
Proof. unfold Py.len. rewrite length_app. lia. Qed.

Lemma len_cons (a : A) s : Py.len (a :: s) = 1 + Py.len s.
Proof. unfold Py.len. cbn [List.length]. lia. Qed.

Lemma adjust_range n i : 0 <= n -> 0 <= Py.adjust n i <= n.
Proof.
  intros Hn. unfold Py.adjust.
  destruct (i <? 0) eqn:E1.
  - destruct (i + n <? 0) eqn:E2; lia.
  - destruct (n <=? i) eqn:E2; lia.
Qed.

Lemma adjust_inside n i : 0 <= i <= n -> Py.adjust n i = i.
Proof.
  intros Hi. unfold Py.adjust.
  destruct (i <? 0) eqn:E1; [lia|].
  destruct (n <=? i) eqn:E2; lia.
Qed.

Lemma adjust_beyond n i : 0 <= n <= i -> Py.adjust n i = n.
Proof.
  intros Hi. unfold Py.adjust.
  destruct (i <? 0) eqn:E1; [lia|].
  destruct (n <=? i) eqn:E2; lia.
Qed.

(** With bounds [0 <= i <= j] a slice is [firstn] of [skipn], whatever
    the length of the sequence. *)
Lemma slice_forward s i j :
  0 <= i <= j ->
  Py.slice s i j = firstn (Z.to_nat (j - i)) (skipn (Z.to_nat i) s).
Proof.
  intros Hij. unfold Py.slice.
  pose proof (len_nonneg s) as Hn.
  destruct (Z_le_gt_dec (Py.len s) i) as [Hi|Hi].
  - rewrite (adjust_beyond _ i) by lia.
    rewrite !skipn_all2 by (unfold Py.len in *; lia).
    now rewrite !firstn_nil.
  - rewrite (adjust_inside _ i) by lia.
    destruct (Z_le_gt_dec (Py.len s) j) as [Hj|Hj].
    + rewrite (adjust_beyond _ j) by lia.
      rewrite !firstn_all2; try reflexivity;
        rewrite length_skipn; unfold Py.len in *; lia.
    + rewrite (adjust_inside _ j) by lia. reflexivity.
Qed.

Lemma slice_empty s i : 0 <= i -> Py.slice s i i = [].
Proof.
  intros Hi. rewrite slice_forward by lia.
  now rewrite Z.sub_diag.
Qed.

(** A stop bound past the end reads to the end. *)
Lemma slice_to_end s i j :
  0 <= i -> Py.len s <= j -> Py.slice s i j = skipn (Z.to_nat i) s.
Proof.
  intros Hi Hj. pose proof (len_nonneg s) as Hn.
  destruct (Z_le_gt_dec (Py.len s) i) as [Hi'|Hi'].
  - unfold Py.slice. rewrite !adjust_beyond by lia.
    rewrite Z.sub_diag. cbn [Z.to_nat firstn].
    symmetry. apply skipn_all2. unfold Py.len in *. lia.
  - rewrite slice_forward by lia.
    apply firstn_all2. rewrite length_skipn. unfold Py.len in *. lia.
Qed.

(** Skipping a known prefix. *)
Lemma slice_after_prefix pre s j :
  0 <= j ->
  Py.slice (pre ++ s) (Py.len pre) (Py.len pre + j)
  = firstn (Z.to_nat j) s.
Proof.
  intros Hj. pose proof (len_nonneg pre) as Hn.
  rewrite slice_forward by lia.
  replace (Py.len pre + j - Py.len pre) with j by lia.
  unfold Py.len. rewrite Nat2Z.id.
  rewrite skipn_app, Nat.sub_diag, skipn_all. reflexivity.
Qed.

(** Whatever the bounds, a slice is a contiguous part of the
    sequence. *)
Lemma slice_contiguous s i j :
  exists pre post, s = pre ++ Py.slice s i j ++ post.
Proof.
  unfold Py.slice.
  set (lo := Z.to_nat (Py.adjust (Py.len s) i)).
  set (k := Z.to_nat (Py.adjust (Py.len s) j - Py.adjust (Py.len s) i)).
  exists (firstn lo s), (skipn k (skipn lo s)).
  now rewrite (firstn_skipn k), (firstn_skipn lo).
Qed.

End Slices.

(** ** [int()] on bytes *)

Section IntOfBytes.

Implicit Types (c : byte) (s ds : bytes).

Lemma ord_range c : 0 <= Py.ord c <= 255.
Proof.
  unfold Py.ord. pose proof (Byte.to_N_bounded c). lia.
Qed.

Lemma ord_inj c c' : Py.ord c = Py.ord c' -> c = c'.
Proof.
  unfold Py.ord. intros E. apply N2Z.inj in E.
  pose proof (Byte.of_to_N c) as H1.
  pose proof (Byte.of_to_N c') as H2.
  rewrite E in H1. congruence.
Qed.

(** A digit is in no other character class of the literal syntax. *)
Lemma digit_classes c :
  Py.isdigit c = true ->
  Py.isspace c = false /\ Py.is_plus c = false /\
  Py.is_minus c = false /\ Py.is_underscore c = false.
Proof.
  unfold Py.isdigit, Py.isspace, Py.is_plus, Py.is_minus, Py.is_underscore.
  intros Hd. apply andb_true_iff in Hd. destruct Hd as [H1 H2].
  apply Z.leb_le in H1. apply Z.leb_le in H2.
  replace (Py.ord c <=? 13) with false by (symmetry; apply Z.leb_gt; lia).
  replace (Py.ord c =? 32) with false by (symmetry; apply Z.eqb_neq; lia).
  replace (Py.ord c =? 43) with false by (symmetry; apply Z.eqb_neq; lia).
  replace (Py.ord c =? 45) with false by (symmetry; apply Z.eqb_neq; lia).
  replace (Py.ord c =? 95) with false by (symmetry; apply Z.eqb_neq; lia).
  now rewrite andb_false_r.
Qed.

Lemma digit_value_range c :
  Py.isdigit c = true -> 0 <= Py.digit_value c <= 9.
Proof.
  unfold Py.isdigit, Py.digit_value. intros Hd.
  apply andb_true_iff in Hd. lia.
Qed.

Lemma scan_digits ds : forall seen acc,
  all_digits ds ->
  Py.scan ds false seen acc
  = Some (fold_left (fun a c => 10 * a + Py.digit_value c) ds acc,
          (seen + List.length ds)%nat, []).
Proof.
  induction ds as [|c t IH]; intros seen acc Hds.
  - cbn. now rewrite Nat.add_0_r.
  - inversion Hds as [|? ? Hc Ht]; subst.
    destruct (digit_classes c Hc) as (_ & _ & _ & Hus).
    cbn [Py.scan fold_left]. rewrite Hus, Hc, (IH _ _ Ht).
    cbn [List.length]. now rewrite Nat.add_succ_r.
Qed.

(** On a non-empty run of digits [int()] is the decimal value. *)
Lemma parse_int_digits ds :
  ds <> [] -> all_digits ds -> Py.parse_int ds = Some (digits_value ds).
Proof.
  intros Hne Hds. destruct ds as [|c t]; [congruence|].
  pose proof Hds as Hds'.
  inversion Hds as [|? ? Hc Ht]; subst.
  destruct (digit_classes c Hc) as (Hsp & Hpl & Hmi & Hus).
  unfold Py.parse_int.
  cbn [Py.skip_space]. rewrite Hsp.
  cbn [Py.take_sign]. rewrite Hpl, Hmi, Hus.
  rewrite (scan_digits _ _ _ Hds').
  cbn [List.length Nat.add Py.skip_space].
  unfold digits_value. f_equal.
  destruct (fold_left _ _ _); reflexivity.
Qed.

Lemma int_digits ds :
  ds <> [] -> all_digits ds -> Py.int ds = Ok (digits_value ds).
Proof.
  intros Hne Hds. unfold Py.int. now rewrite parse_int_digits.
Qed.

Lemma int_empty : Py.int [] = Raise (ValueError []).
Proof. reflexivity. Qed.

(** A single byte is a literal exactly when it is a digit. *)
Lemma int_single c :
  Py.int [c] = if Py.isdigit c then Ok (Py.digit_value c)
               else Raise (ValueError [c]).
Proof.
  destruct (Py.isdigit c) eqn:Hc.
  - rewrite int_digits; [reflexivity | congruence | now repeat constructor].
  - unfold Py.int, Py.parse_int. cbn [Py.skip_space].
    destruct (Py.isspace c); [reflexivity|].
    cbn [Py.take_sign].
    destruct (Py.is_plus c); [reflexivity|].
    destruct (Py.is_minus c); [reflexivity|].
    destruct (Py.is_underscore c) eqn:Hus; [reflexivity|].
    cbn [Py.scan]. rewrite Hus, Hc. reflexivity.
Qed.

Lemma skip_space_split s :
  exists sp, s = sp ++ Py.skip_space s /\
             Forall (fun c => Py.isspace c = true) sp.
Proof.
  induction s as [|c t (sp & E & Hsp)].
  - exists []. split; [reflexivity | constructor].
  - cbn [Py.skip_space]. destruct (Py.isspace c) eqn:Hc.
    + exists (c :: sp). split; [cbn; congruence | now constructor].
    + exists []. split; [reflexivity | constructor].
Qed.

Lemma scan_split s : forall prev seen acc v seen' rest,
  Py.scan s prev seen acc = Some (v, seen', rest) ->
  exists pre, s = pre ++ rest /\
              Forall (fun c => Py.isdigit c || Py.is_underscore c = true) pre.
Proof.
  induction s as [|c t IH]; intros prev seen acc v seen' rest Hscan.
  - cbn in Hscan. destruct prev; [discriminate|].
    injection Hscan as _ _ <-. exists []. split; [reflexivity | constructor].
  - cbn [Py.scan] in Hscan.
    destruct (Py.is_underscore c) eqn:Hus.
    + destruct prev; [discriminate|].
      destruct (IH _ _ _ _ _ _ Hscan) as (pre & E & Hpre).
      exists (c :: pre). split; [cbn; congruence|].
      constructor; [|assumption]. rewrite Hus. apply orb_true_r.
    + destruct (Py.isdigit c) eqn:Hd.
      * destruct (IH _ _ _ _ _ _ Hscan) as (pre & E & Hpre).
        exists (c :: pre). split; [cbn; congruence|].
        constructor; [|assumption]. now rewrite Hd.
      * destruct prev; [discriminate|].
        injection Hscan as _ _ <-.
        exists []. split; [reflexivity | constructor].
Qed.

(** Every byte of a literal that [int()] accepts is a digit, ASCII
    whitespace, a sign or an underscore. *)
Lemma parse_int_alphabet s v :
  Py.parse_int s = Some v -> Forall (fun c => int_alphabet c = true) s.
Proof.
  unfold Py.parse_int. intros Hp.
  destruct (skip_space_split s) as (sp & Es & Hsp).
  rewrite Es. apply Forall_app. split.
  { eapply Forall_impl; [|exact Hsp]. cbn. intros c Hc.
    unfold int_alphabet. rewrite Hc. now rewrite orb_true_r. }
  destruct (Py.take_sign (Py.skip_space s)) as [sign body] eqn:Esign.
  assert (Hbody : Forall (fun c => int_alphabet c = true) body ->
                  Forall (fun c => int_alphabet c = true) (Py.skip_space s)).
  { intros Hb. unfold Py.take_sign in Esign.
    destruct (Py.skip_space s) as [|c t]; [constructor|].
    destruct (Py.is_plus c) eqn:Hpl.
    - injection Esign as _ <-. constructor; [|assumption].
      unfold int_alphabet. rewrite Hpl. now rewrite !orb_true_r.
    - destruct (Py.is_minus c) eqn:Hmi.
      + injection Esign as _ <-. constructor; [|assumption].
        unfold int_alphabet. rewrite Hmi. now rewrite !orb_true_r.
      + injection Esign as _ <-. assumption. }
  apply Hbody. clear Hbody Esign Es Hsp sp.
  destruct body as [|c0 t0]; [constructor|].
  destruct (Py.is_underscore c0); [discriminate|].
  destruct (Py.scan (c0 :: t0) false 0 0) as [[[v' seen] rest]|] eqn:Hscan;
    [|discriminate].
  destruct seen; [discriminate|].
  destruct (Py.skip_space rest) eqn:Hrest; [|discriminate].
  destruct (scan_split _ _ _ _ _ _ _ Hscan) as (pre & E & Hpre).
  rewrite E. apply Forall_app. split.
  - eapply Forall_impl; [|exact Hpre]. cbn. intros c Hc.
    unfold int_alphabet.
    apply orb_true_iff in Hc. destruct Hc as [Hc|Hc]; rewrite Hc;
      now rewrite ?orb_true_r.
  - destruct (skip_space_split rest) as (sp' & E' & Hsp').
    rewrite Hrest, List.app_nil_r in E'. subst sp'.
    eapply Forall_impl; [|exact Hsp']. cbn. intros c Hc.
    unfold int_alphabet. rewrite Hc. now rewrite orb_true_r.
Qed.

End IntOfBytes.

(** ** The decode step *)

Local Open Scope py_scope.

(** The step as an equation on the received bytes. *)
Lemma decode_eq response :
  decode response =
  if Py.startswith response (B "#") then
    h <- Py.int (Py.slice response 1 2) ;;
    n <- Py.int (Py.slice response 2 (2 + h)) ;;
    Ok (Py.slice response (2 + h) (2 + h + n))
  else Ok response.
Proof.
  unfold decode, block_header_step. cbn [data].
  destruct (Py.startswith response (B "#")); [|reflexivity].
  destruct (Py.int (Py.slice response 1 2)) as [h|e]; [|reflexivity].
  cbn [bind load set_header_length header_length data].
  destruct (Py.int (Py.slice response 2 (2 + h))) as [n|e];
    reflexivity.
Qed.

Lemma startswith_hash_nil : Py.startswith [] (B "#") = false.
Proof. reflexivity. Qed.

Lemma startswith_hash_cons c t :
  Py.startswith (c :: t) (B "#") = (Py.ord c =? 35).
Proof.
  unfold Py.startswith. cbn. now rewrite andb_true_r.
Qed.

Lemma startswith_hash response :
  Py.startswith response (B "#") = true ->
  exists t, response = x23 :: t.
Proof.
  destruct response as [|c t]; [discriminate|].
  rewrite startswith_hash_cons. intros E. apply Z.eqb_eq in E.
  exists t. f_equal. now apply ord_inj.
Qed.

(** The three slices of the step on a response that is a marker, a
    digit-count byte, a length field of that many bytes, and the rest. *)
Lemma header_slices hc ds rest :
  let response := x23 :: hc :: ds ++ rest in
  Py.slice response 1 2 = [hc] /\
  Py.slice response 2 (2 + Py.len ds) = ds /\
  forall j, 0 <= j ->
    Py.slice response (2 + Py.len ds) (2 + Py.len ds + j)
    = firstn (Z.to_nat j) rest.
Proof.
  intros response. pose proof (len_nonneg ds) as Hds. repeat split.
  - subst response. now rewrite slice_forward by lia.
  - subst response.
    change (x23 :: hc :: ds ++ rest) with ([x23; hc] ++ ds ++ rest).
    change 2 with (Py.len [x23; hc]) at 1 2.
    rewrite slice_after_prefix by assumption.
    unfold Py.len. rewrite Nat2Z.id, firstn_app, Nat.sub_diag, firstn_all.
    cbn [firstn]. now rewrite List.app_nil_r.
  - intros j Hj. subst response.
    change (x23 :: hc :: ds ++ rest) with ((x23 :: hc :: ds) ++ rest).
    replace (2 + Py.len ds) with (Py.len (x23 :: hc :: ds))
      by (rewrite !len_cons; lia).
    now apply slice_after_prefix.
Qed.

(** Decoding a response with a well-formed header: the payload is the
    first [L] bytes of what follows the header, or all of it when fewer
    than [L] bytes follow. *)
Lemma decode_header hc ds rest :
  Py.isdigit hc = true ->
  Py.digit_value hc = Py.len ds ->
  ds <> [] ->
  all_digits ds ->
  decode (x23 :: hc :: ds ++ rest)
  = Ok (firstn (Z.to_nat (digits_value ds)) rest).
Proof.
  intros Hhc Hh Hne Hds.
  destruct (header_slices hc ds rest) as (S1 & S2 & S3).
  rewrite decode_eq, startswith_hash_cons.
  change (Py.ord x23 =? 35) with true. cbv iota.
  rewrite S1, int_single, Hhc. cbn [bind].
  rewrite Hh, S2, (int_digits _ Hne Hds). cbn [bind].
  rewrite S3; [reflexivity|].
  unfold digits_value.
  assert (G : forall l acc, all_digits l -> 0 <= acc ->
            0 <= fold_left decimal_step l acc).
  { induction l as [|c t IH]; intros acc Hl Hacc; [assumption|].
    inversion Hl as [|? ? Hc Ht]; subst. cbn [fold_left].
    apply IH; [assumption|]. pose proof (digit_value_range c Hc).
    unfold decimal_step. lia. }
  apply G; [assumption | lia].
Qed.

(** C1: on a well-formed block -- the marker, one ASCII digit [H] in 1..9,
    exactly [H] ASCII digits that denote [L], then a payload [P] of [L]
    bytes -- the step reads [H] from the byte at index 1, reads [L] from
    the [H] bytes that follow, and returns [response[2+H : 2+H+L]], which
    is [P]. *)
Theorem decode_well_formed_block (hc : byte) (ds P : bytes) (H L : Z) :
  1 <= H <= 9 ->
  Py.ord hc = 48 + H ->
  Py.len ds = H ->
  all_digits ds ->
  digits_value ds = L ->
  Py.len P = L ->
  let response := B "#" ++ hc :: ds ++ P in
  Py.int (Py.slice response 1 2) = Ok H /\
  Py.int (Py.slice response 2 (2 + H)) = Ok L /\
  Py.slice response (2 + H) (2 + H + L) = P /\
  decode response = Ok P.
Proof.
  intros HH Hhc Hlen Hds HL HP response.
  assert (Hd : Py.isdigit hc = true).
  { unfold Py.isdigit. apply andb_true_iff. split; apply Z.leb_le; lia. }
  assert (Hv : Py.digit_value hc = Py.len ds).
  { unfold Py.digit_value. lia. }
  assert (Hne : ds <> []).
  { intros ->. cbn in Hlen. lia. }
  assert (HP' : firstn (Z.to_nat L) P = P).
  { apply firstn_all2. unfold Py.len in HP. lia. }
  change response with (x23 :: hc :: ds ++ P).
  destruct (header_slices hc ds P) as (S1 & S2 & S3).
  rewrite Hlen in S2, S3.
  repeat split.
  - rewrite S1, int_single, Hd. f_equal. unfold Py.digit_value. lia.
  - rewrite S2, <- HL. now apply int_digits.
  - rewrite S3; [assumption|]. pose proof (len_nonneg P). lia.
  - rewrite decode_header by assumption. now rewrite HL, HP'.
Qed.

Lemma decode_well_formed_block_witness :
  let response := B "#" ++ x31 :: B "5" ++ B "hello" in
  Py.int (Py.slice response 1 2) = Ok 1 /\
  Py.int (Py.slice response 2 (2 + 1)) = Ok 5 /\
  Py.slice response (2 + 1) (2 + 1 + 5) = B "hello" /\
  decode response = Ok (B "hello").
Proof.
  apply (decode_well_formed_block x31 (B "5") (B "hello") 1 5);
    [lia | reflexivity | reflexivity | repeat constructor
    | reflexivity | reflexivity].
Defined.

(** The same header with fewer bytes behind it than it announces: all of
    them are returned. *)
Lemma decode_header_truncated hc ds rest :
  Py.isdigit hc = true ->
  Py.digit_value hc = Py.len ds ->
  ds <> [] ->
  all_digits ds ->
  Py.len rest <= digits_value ds ->
  decode (x23 :: hc :: ds ++ rest) = Ok rest.
Proof.
  intros Hhc Hh Hne Hds Hshort.
  rewrite decode_header by assumption. f_equal.
  apply firstn_all2. unfold Py.len in Hshort. lia.
Qed.

(** The digit-count read at index 1, when [int()] accepts it, is a single
    decimal digit. *)
Lemma header_length_range response h :
  Py.int (Py.slice response 1 2) = Ok h -> 0 <= h <= 9.
Proof.
  rewrite slice_forward by lia.
  change (Z.to_nat (2 - 1)) with 1%nat. change (Z.to_nat 1) with 1%nat.
  destruct (skipn 1 response) as [|c t].
  - cbn [firstn]. rewrite int_empty. discriminate.
  - cbn [firstn]. rewrite int_single.
    destruct (Py.isdigit c) eqn:Hc; [|discriminate].
    intros E. injection E as <-. now apply digit_value_range.
Qed.

(** C3: when the header parses, with digit count [H] and declared length
    [L], and fewer than [L] bytes follow the header, that is
    [len(response) < 2 + H + L], the step does not fail: it returns the
    bytes that are there, [response[2+H : len(response)]]. *)
Theorem decode_truncated_payload (response : bytes) (H L : Z) :
  Py.startswith response (B "#") = true ->
  Py.int (Py.slice response 1 2) = Ok H ->
  Py.int (Py.slice response 2 (2 + H)) = Ok L ->
  Py.len response < 2 + H + L ->
  decode response = Ok (Py.slice response (2 + H) (Py.len response)).
Proof.
  intros Hs HH HL Hlt.
  pose proof (header_length_range _ _ HH) as Hr.
  rewrite decode_eq, Hs, HH. cbn [bind]. rewrite HL. cbn [bind].
  rewrite !slice_to_end by lia. reflexivity.
Qed.

Lemma decode_truncated_payload_witness :
  decode (B "#3100abcdefghij") = Ok (B "abcdefghij").
Proof.
  exact (decode_truncated_payload (B "#3100abcdefghij") 3 100
           eq_refl eq_refl eq_refl eq_refl).
Defined.

(** C4: a non-empty response whose first byte is not ['#'] is returned
    unchanged. *)
Theorem decode_no_header (b : bytes) :
  b <> [] -> hd_error b <> Some x23 -> decode b = Ok b.
Proof.
  intros Hne Hhd. destruct b as [|c t]; [congruence|].
  rewrite decode_eq, startswith_hash_cons.
  destruct (Py.ord c =? 35) eqn:E; [|reflexivity].
  apply Z.eqb_eq in E. exfalso. apply Hhd. cbn. f_equal.
  now apply ord_inj.
Qed.

Lemma decode_no_header_witness :
  decode (B "PNG data") = Ok (B "PNG data").
Proof.
  apply decode_no_header; cbv; discriminate.
Defined.

(** C6: the empty response decodes to the empty byte sequence, without an
    exception. *)
Theorem decode_empty : decode [] = Ok [].
Proof. reflexivity. Qed.

(** C9: whenever the step returns, what it returns is a contiguous part of
    the response, so it is no longer than the response. *)
Theorem decode_result_is_slice (response out : bytes) :
  decode response = Ok out ->
  (exists pre post, response = pre ++ out ++ post) /\
  Py.len out <= Py.len response.
Proof.
  intros Hdec.
  assert (Hsl : exists pre post, response = pre ++ out ++ post).
  { rewrite decode_eq in Hdec.
    destruct (Py.startswith response (B "#")).
    - destruct (Py.int (Py.slice response 1 2)) as [h|e]; [|discriminate].
      cbn [bind] in Hdec.
      destruct (Py.int (Py.slice response 2 (2 + h))) as [n|e];
        [|discriminate].
      cbn [bind] in Hdec. injection Hdec as <-.
      apply slice_contiguous.
    - injection Hdec as <-. exists [], []. now rewrite List.app_nil_r. }
  split; [assumption|].
  destruct Hsl as (pre & post & E).
  rewrite E, !len_app.
  pose proof (len_nonneg pre). pose proof (len_nonneg post). lia.
Qed.

Lemma decode_result_is_slice_witness :
  (exists pre post, B "#3 -9abcdefgh" = pre ++ B "abcd" ++ post) /\
  Py.len (B "abcd") <= Py.len (B "#3 -9abcdefgh").
Proof.
  exact (decode_result_is_slice (B "#3 -9abcdefgh") (B "abcd") eq_refl).
Defined.

(** C10: the lone marker [b'#'], and every response whose digit-count byte
    is ['0'], make [int()] run on an empty slice: the step raises
    [ValueError] and returns nothing. *)
Theorem decode_empty_length_field :
  decode (B "#") = Raise (ValueError []) /\
  forall rest, decode (B "#0" ++ rest) = Raise (ValueError []).
Proof.
  split; [reflexivity|].
  intros rest. change (B "#0" ++ rest) with (x23 :: x30 :: [] ++ rest).
  destruct (header_slices x30 [] rest) as (S1 & S2 & _).
  rewrite decode_eq, startswith_hash_cons.
  change (Py.ord x23 =? 35) with true. cbv iota.
  rewrite S1, int_single. change (Py.isdigit x30) with true. cbv iota.
  cbn [bind]. change (Py.digit_value x30) with 0.
  change (Py.len (@nil byte)) with 0 in S2.
  rewrite S2. reflexivity.
Qed.

(** ** The decimal text of a length *)

Lemma bytes_of_uint_digits (d : Decimal.uint) : all_digits (bytes_of_uint d).
Proof.
  induction d; cbn [bytes_of_uint]; constructor; (reflexivity || assumption).
Qed.

Lemma bytes_of_uint_nil (d : Decimal.uint) :
  bytes_of_uint d = [] -> d = Decimal.Nil.
Proof. destruct d; [reflexivity | discriminate..]. Qed.

Lemma of_uint_acc_value (d : Decimal.uint) : forall acc,
  Z.pos (Pos.of_uint_acc d acc)
  = fold_left decimal_step (bytes_of_uint d) (Z.pos acc).
Proof.
  induction d; intros acc; cbn [Pos.of_uint_acc bytes_of_uint fold_left];
    [reflexivity | rewrite IHd; f_equal; unfold decimal_step..];
    match goal with
    | |- _ = _ + Py.digit_value ?c =>
        let v := eval vm_compute in (Py.digit_value c) in
        change (Py.digit_value c) with v
    end;
    lia.
Qed.

Lemma of_uint_value (d : Decimal.uint) :
  Z.of_N (Pos.of_uint d) = digits_value (bytes_of_uint d).
Proof.
  unfold digits_value. fold decimal_step.
  induction d; cbn [Pos.of_uint bytes_of_uint fold_left];
    [reflexivity | assumption | ..];
    cbn [Z.of_N]; rewrite of_uint_acc_value; reflexivity.
Qed.

(** [str] prints digits only, at least one, and they denote the number. *)
Lemma str_digits (n : Z) : all_digits (str n).
Proof. apply bytes_of_uint_digits. Qed.

Lemma str_nonempty (n : Z) : str n <> [].
Proof.
  unfold str. intros E. apply bytes_of_uint_nil in E.
  destruct (Z.to_N n) as [|p]; [discriminate|].
  now apply (DecimalPos.Unsigned.to_uint_nonnil p).
Qed.

Lemma str_value (n : Z) : 0 <= n -> digits_value (str n) = n.
Proof.
  intros Hn. unfold str. rewrite <- of_uint_value.
  change (Pos.of_uint (N.to_uint (Z.to_N n)))
    with (N.of_uint (N.to_uint (Z.to_N n))).
  rewrite DecimalN.Unsigned.of_to. now apply Z2N.id.
Qed.

Lemma fold_step_lower (ds : bytes) : forall acc,
  all_digits ds -> 0 <= acc ->
  acc * 10 ^ Py.len ds <= fold_left decimal_step ds acc.
Proof.
  induction ds as [|c t IH]; intros acc Hds Hacc.
  - cbn. lia.
  - inversion Hds as [|? ? Hc Ht]; subst.
    pose proof (digit_value_range c Hc) as Hr.
    pose proof (len_nonneg t) as Hn.
    cbn [fold_left]. rewrite len_cons.
    rewrite Z.pow_add_r, Z.pow_1_r by lia.
    assert (Hpow : 0 < 10 ^ Py.len t) by (apply Z.pow_pos_nonneg; lia).
    assert (Hstep : 10 * acc <= decimal_step acc c)
      by (unfold decimal_step; lia).
    apply Z.le_trans with (decimal_step acc c * 10 ^ Py.len t).
    + rewrite Z.mul_assoc, (Z.mul_comm acc 10).
      apply Z.mul_le_mono_nonneg_r; lia.
    + apply IH; [assumption | lia].
Qed.

(** The text of a positive number starts with a digit other than zero. *)
Lemma to_uint_head (p : positive) :
  exists c t, bytes_of_uint (Pos.to_uint p) = c :: t /\
              1 <= Py.digit_value c /\ all_digits t.
Proof.
  pose proof (DecimalPos.Unsigned.to_uint_nonzero p) as Hnz.
  pose proof (DecimalPos.Unsigned.to_of (Pos.to_uint p)) as Hnorm.
  rewrite DecimalPos.Unsigned.of_to in Hnorm.
  change (N.to_uint (N.pos p)) with (Pos.to_uint p) in Hnorm.
  assert (Hhead : forall d', Pos.to_uint p <> Decimal.D0 d').
  { intros d' E. rewrite E in Hnorm, Hnz. rewrite unorm_D0 in Hnorm.
    unfold Decimal.unorm in Hnorm.
    pose proof (nzhead_nonzero d' d') as Hz.
    destruct (Decimal.nzhead d') eqn:En; try discriminate;
      [injection Hnorm as Hd; subst d'; now apply Hnz | now apply Hz]. }
  pose proof (DecimalPos.Unsigned.to_uint_nonnil p) as Hnil.
  pose proof (bytes_of_uint_digits (Pos.to_uint p)) as Hds.
  destruct (Pos.to_uint p) as [|d|d|d|d|d|d|d|d|d|d];
    [congruence | exfalso; now apply (Hhead d) | ..];
    cbn [bytes_of_uint] in *; inversion Hds; subst;
    eexists; eexists; (split; [reflexivity|]); (split; [|assumption]);
    vm_compute; discriminate.
Qed.

(** Below 10^9 the text has 1 to 9 digits. *)
Lemma str_length (n : Z) : 0 <= n < 10 ^ 9 -> 1 <= Py.len (str n) <= 9.
Proof.
  intros Hn. unfold str.
  destruct (Z.to_N n) as [|p] eqn:En; [cbv; split; discriminate|].
  destruct (to_uint_head p) as (c & t & E & Hc & Ht).
  change (N.to_uint (N.pos p)) with (Pos.to_uint p). rewrite E, len_cons.
  pose proof (len_nonneg t) as H0.
  split; [lia|].
  pose proof (str_value n (proj1 Hn)) as Hv.
  unfold str in Hv. rewrite En in Hv.
  change (N.to_uint (N.pos p)) with (Pos.to_uint p) in Hv.
  rewrite E in Hv. unfold digits_value in Hv. cbn [fold_left] in Hv.
  assert (Hlow : decimal_step 0 c * 10 ^ Py.len t <= n).
  { rewrite <- Hv.
    apply fold_step_lower; [assumption | unfold decimal_step; lia]. }
  unfold decimal_step in Hlow.
  destruct (Z_le_gt_dec (Py.len t) 8) as [Hle|Hgt]; [lia|].
  exfalso.
  assert (10 ^ 9 <= 10 ^ Py.len t) by (apply Z.pow_le_mono_r; lia).
  nia.
Qed.

(** A count of 1 to 9 is printed as one digit. *)
Lemma str_single_digit (h : Z) :
  1 <= h <= 9 ->
  exists hc, str h = [hc] /\ Py.isdigit hc = true /\ Py.digit_value hc = h.
Proof.
  intros Hh.
  assert (Hcases : h = 1 \/ h = 2 \/ h = 3 \/ h = 4 \/ h = 5 \/
                   h = 6 \/ h = 7 \/ h = 8 \/ h = 9) by lia.
  repeat (destruct Hcases as [->|Hcases]); try subst h;
    eexists; (split; [reflexivity|]); split; reflexivity.
Qed.

(** ** Round trip through a correct header *)

Lemma round_trip_with_field (P : bytes) (hc : byte) (field : bytes) :
  str (Py.len P) = field ->
  str (Py.len field) = [hc] ->
  Py.isdigit hc = true ->
  Py.digit_value hc = Py.len field ->
  field <> [] ->
  all_digits field ->
  digits_value field = Py.len P ->
  decode (encode P) = Ok P.
Proof.
  intros Hf Hh Hd Hv Hne Hds Hval.
  unfold encode. rewrite Hf, Hh.
  change (B "#" ++ [hc] ++ field ++ P) with (x23 :: hc :: field ++ P).
  rewrite decode_header by assumption.
  rewrite Hval. unfold Py.len. rewrite Nat2Z.id. now rewrite firstn_all.
Qed.

(** C5: a payload of 0, 1, 255 or 65536 bytes, put behind a correct
    header (marker, digit count of the length, the length in decimal) and
    then decoded, comes back unchanged. *)
Theorem round_trip (P : bytes) :
  In (Py.len P) [0; 1; 255; 65536] -> decode (encode P) = Ok P.
Proof.
  intros [HL|[HL|[HL|[HL|[]]]]].
  - apply (round_trip_with_field P x31 (B "0")); rewrite <- ?HL;
      try reflexivity; [discriminate | repeat constructor].
  - apply (round_trip_with_field P x31 (B "1")); rewrite <- ?HL;
      try reflexivity; [discriminate | repeat constructor].
  - apply (round_trip_with_field P x33 (B "255")); rewrite <- ?HL;
      try reflexivity; [discriminate | repeat constructor].
  - apply (round_trip_with_field P x35 (B "65536")); rewrite <- ?HL;
      try reflexivity; [discriminate | repeat constructor].
Qed.

Lemma round_trip_witness :
  In (Py.len (B "Z")) [0; 1; 255; 65536] /\
  decode (encode (B "Z")) = Ok (B "Z").
Proof.
  assert (Hin : In (Py.len (B "Z")) [0; 1; 255; 65536])
    by (right; left; reflexivity).
  split; [exact Hin | exact (round_trip (B "Z") Hin)].
Defined.

(** The round trip holds for every payload shorter than 10^9 bytes, the
    largest length that a one-digit count can announce. *)
Lemma round_trip_below_1e9 (P : bytes) :
  Py.len P < 10 ^ 9 -> decode (encode P) = Ok P.
Proof.
  intros HP. pose proof (len_nonneg P) as H0.
  pose proof (str_length (Py.len P) (conj H0 HP)) as Hlen.
  destruct (str_single_digit _ Hlen) as (hc & Eh & Hd & Hv).
  apply (round_trip_with_field P hc (str (Py.len P)));
    try assumption; try reflexivity.
  - apply str_nonempty.
  - apply str_digits.
  - now apply str_value.
Qed.

(** ** Malformed headers *)

(** C2, against the claim as stated: a length field with a non-digit byte
    that [int()] accepts is decoded and bytes are returned; and the
    exception for a non-digit digit count is Python's [ValueError]. *)
Lemma malformed_length_field_accepted :
  (Py.startswith (B "#2 5abcde") (B "#") = true /\
   non_digit_in_header (B "#2 5abcde") /\
   decode (B "#2 5abcde") = Ok (B "abcde")) /\
  (Py.startswith (B "#A123") (B "#") = true /\
   non_digit_in_header (B "#A123") /\
   decode (B "#A123") = Raise (ValueError (B "A"))).
Proof.
  split; (split; [reflexivity|]); (split; [|reflexivity]).
  - right. exists 2, x20. split; [reflexivity|].
    split; [left; reflexivity | reflexivity].
  - left. exists x41. split; reflexivity.
Qed.

(** C2, amended: when the response begins with ['#'] and the byte at
    index 1 is not an ASCII digit, or the length field holds a byte that is
    neither a digit, ASCII whitespace, a sign nor an underscore, the step
    raises [ValueError] with the refused literal -- [response[1:2]] or the
    length field -- and returns no bytes. *)
Theorem decode_malformed_header_raises (response : bytes) :
  Py.startswith response (B "#") = true ->
  ((exists c, Py.slice response 1 2 = [c] /\ Py.isdigit c = false) \/
   (exists h c, Py.int (Py.slice response 1 2) = Ok h /\
                In c (Py.slice response 2 (2 + h)) /\
                int_alphabet c = false)) ->
  exists literal,
    decode response = Raise (ValueError literal) /\
    (literal = Py.slice response 1 2 \/
     exists h, Py.int (Py.slice response 1 2) = Ok h /\
               literal = Py.slice response 2 (2 + h)).
Proof.
  intros Hs [(c & E1 & Hc)|(h & c & Hh & Hin & Hc)].
  - exists [c]. rewrite decode_eq, Hs, E1, int_single, Hc.
    split; [reflexivity | now left].
  - exists (Py.slice response 2 (2 + h)).
    rewrite decode_eq, Hs, Hh. cbn [bind]. split; [|right; now exists h].
    unfold Py.int.
    destruct (Py.parse_int (Py.slice response 2 (2 + h))) as [v|] eqn:Hp;
      [|reflexivity].
    exfalso. pose proof (parse_int_alphabet _ _ Hp) as Hall.
    rewrite Forall_forall in Hall. specialize (Hall c Hin). congruence.
Qed.

Lemma decode_malformed_header_raises_witness :
  exists literal,
    decode (B "#A123") = Raise (ValueError literal) /\
    (literal = Py.slice (B "#A123") 1 2 \/
     exists h, Py.int (Py.slice (B "#A123") 1 2) = Ok h /\
               literal = Py.slice (B "#A123") 2 (2 + h)).
Proof.
  apply decode_malformed_header_raises; [reflexivity|].
  left. exists x41. split; reflexivity.
Defined.

(** ** The step and the locals *)

(** The step as an equation on the frame: it binds the three locals it
    assigns and leaves [data] alone. *)
Lemma block_header_step_eq (l : Locals) :
  block_header_step l =
  if Py.startswith (data l) (B "#") then
    h <- Py.int (Py.slice (data l) 1 2) ;;
    n <- Py.int (Py.slice (data l) 2 (2 + h)) ;;
    Ok (mkLocals (data l) (Some h) (Some n)
          (Some (Py.slice (data l) (2 + h) (2 + h + n))))
  else
    Ok (mkLocals (data l) (header_length l) (data_length l) (Some (data l))).
Proof.
  unfold block_header_step.
  destruct (Py.startswith (data l) (B "#")); [|reflexivity].
  destruct (Py.int (Py.slice (data l) 1 2)) as [h|e]; [|reflexivity].
  cbn [bind load set_header_length header_length data].
  destruct (Py.int (Py.slice (data l) 2 (2 + h))) as [n|e]; reflexivity.
Qed.

(** C8: the step is a function of [data] alone and does not touch it: run
    on two frames that hold equal [data] -- whatever else they hold -- it
    raises the same exception in both or binds the same [binary_data] in
    both, and [data] is afterwards what it was. *)
Theorem block_header_step_pure (l1 l2 : Locals) :
  data l1 = data l2 ->
  match block_header_step l1, block_header_step l2 with
  | Ok l1', Ok l2' =>
      binary_data l1' = binary_data l2' /\
      data l1' = data l1 /\ data l2' = data l2
  | Raise e1, Raise e2 => e1 = e2
  | _, _ => False
  end.
Proof.
  intros E. rewrite !block_header_step_eq, <- E.
  destruct (Py.startswith (data l1) (B "#")).
  - destruct (Py.int (Py.slice (data l1) 1 2)) as [h|e]; [|reflexivity].
    cbn [bind].
    destruct (Py.int (Py.slice (data l1) 2 (2 + h))) as [n|e];
      [|reflexivity].
    cbn [bind binary_data data]. now rewrite E.
  - cbn [binary_data data]. now rewrite E.
Qed.

Lemma block_header_step_pure_witness :
  match block_header_step (mkLocals (B "#15hello") None None None),
        block_header_step (mkLocals (B "#15hello") (Some 7) (Some 9)
                             (Some (B "stale"))) with
  | Ok l1', Ok l2' =>
      binary_data l1' = binary_data l2' /\
      data l1' = B "#15hello" /\ data l2' = B "#15hello"
  | Raise e1, Raise e2 => e1 = e2
  | _, _ => False
  end.
Proof.
  exact (block_header_step_pure
           (mkLocals (B "#15hello") None None None)
           (mkLocals (B "#15hello") (Some 7) (Some 9) (Some (B "stale")))
           eq_refl).
Defined.

(** ** [IDNCheck] *)

Local Open Scope run_scope.

Example IDNCheck_detected :
  fst (IDNCheck
         (mkWorld
            (mkSelf IDN_text "" "" (Some (mkScripted [] [ReplyText IDN_text])))
            (mkDisk [] (fun _ => None)))) = Ok 1.
Proof. reflexivity. Qed.

Example IDNCheck_other_device :
  fst (IDNCheck
         (mkWorld
            (mkSelf IDN_text "" ""
               (Some (mkScripted [] [ReplyText "RIGOL,DS1054Z"%string])))
            (mkDisk [] (fun _ => None)))) = Ok 0.
Proof. reflexivity. Qed.

Example saveImage_run :
  let '(r, w) :=
    saveImage "shot.png" "COLor" (answering_world (B "#15hello")) in
  r = Ok tt /\
  files (disk w) = [("shot.png"%string, B "hello")] /\
  option_map sent (OS (self w)) = Some [":DISPlay:DATA? PNG, COLor"%string].
Proof. cbv. repeat split. Qed.

Example saveImage_bad_header :
  let '(r, w) := saveImage "shot.png" "COLor" (answering_world (B "#A123")) in
  r = Raise (ValueError (B "A")) /\ files (disk w) = [].
Proof. cbv. repeat split. Qed.

Section SaveImageFacts.

Context {T : Type} `{Resource T}.

(** Between [read_raw] and the file write, [saveImage] runs [decode] on
    what it received and nothing else. *)
Lemma saveImage_decode (location palette : string) (w : World T) :
  saveImage location palette w =
  (on_OS (write (String.append ":DISPlay:DATA? PNG, " palette)) ;;;
   data <~ on_OS read_raw ;;
   binary_data <~ lift (decode data) ;;
   write_file location binary_data) w.
Proof.
  unfold saveImage, seq, lift, decode.
  destruct (on_OS (write _) w) as [[[]|e] w1]; [|reflexivity].
  destruct (on_OS read_raw w1) as [[data|e] w2]; [|reflexivity].
  destruct (block_header_step _) as [l|e]; reflexivity.
Qed.

End SaveImageFacts.

Section IDNCheckFacts.

Context {T : Type} `{Resource T}.

(** Whatever the session does, [IDNCheck] returns [0] or [1]. *)
Lemma IDNCheck_returns_flag (w : World T) :
  fst (IDNCheck w) = Ok 0 \/ fst (IDNCheck w) = Ok 1.
Proof.
  unfold IDNCheck, try_except, seq, on_OS, ret.
  destruct (OS (self w)) as [os|]; [|now left].
  destruct (query "*IDN?" os) as [[r|e] os']; [|now left].
  cbn [self IDN].
  destruct (String.eqb r (IDN (self w))); [now right | now left].
Qed.

(** C7, amended: when the query of [IDNCheck] meets a transport error,
    the bare [except] catches it and [IDNCheck] returns [0]; the caller
    sees no exception. *)
Theorem IDNCheck_transport_error_returns_0
    (w : World T) (os os' : T) (e : exn) :
  OS (self w) = Some os ->
  query "*IDN?" os = (Raise e, os') ->
  fst (IDNCheck w) = Ok 0.
Proof.
  intros Hos Hq.
  unfold IDNCheck, try_except, seq, on_OS, ret.
  now rewrite Hos, Hq.
Qed.

End IDNCheckFacts.

(** C7, against the claim as stated: the link times out, the query raises
    [VisaIOError], and [IDNCheck] hands the caller the flag [0] instead of
    an exception. *)
Lemma IDNCheck_swallows_transport_error :
  fst (query "*IDN?" (mkScripted [] [])) = Raise (VisaIOError VI_ERROR_TMO) /\
  fst (IDNCheck silent_world) = Ok 0.
Proof. split; reflexivity. Qed.

Lemma IDNCheck_transport_error_returns_0_witness :
  fst (IDNCheck silent_world) = Ok 0.
Proof.
  apply (IDNCheck_transport_error_returns_0 silent_world
           (mkScripted [] [])
           (mkScripted ["*IDN?"%string] [])
           (VisaIOError VI_ERROR_TMO));
    reflexivity.
Defined.

(** ** More on the decode step *)

Local Open Scope py_scope.

(** X1: the step raises nothing but the [ValueError] of one of its two
    [int()] calls, and only on a response that begins with ['#']: the
    literal is [response[1:2]], or the length field when the digit count
    was read. *)
Theorem decode_raises_only_ValueError (response : bytes) (e : exn) :
  decode response = Raise e ->
  Py.startswith response (B "#") = true /\
  ((Py.parse_int (Py.slice response 1 2) = None /\
    e = ValueError (Py.slice response 1 2)) \/
   (exists h, Py.int (Py.slice response 1 2) = Ok h /\
              Py.parse_int (Py.slice response 2 (2 + h)) = None /\
              e = ValueError (Py.slice response 2 (2 + h)))).
Proof.
  rewrite decode_eq.
  destruct (Py.startswith response (B "#")); [|discriminate].
  intros Hr. split; [reflexivity|].
  unfold Py.int in *.
  destruct (Py.parse_int (Py.slice response 1 2)) as [h|] eqn:E1.
  - cbn [bind] in Hr. right. exists h. split; [reflexivity|].
    destruct (Py.parse_int (Py.slice response 2 (2 + h))) as [n|] eqn:E2;
      [discriminate|].
    cbn [bind] in Hr. injection Hr as <-. now split.
  - cbn [bind] in Hr. injection Hr as <-. left. now split.
Qed.

Lemma decode_raises_only_ValueError_witness :
  Py.startswith (B "#2x5abc") (B "#") = true /\
  ((Py.parse_int (Py.slice (B "#2x5abc") 1 2) = None /\
    ValueError (B "x5") = ValueError (Py.slice (B "#2x5abc") 1 2)) \/
   (exists h, Py.int (Py.slice (B "#2x5abc") 1 2) = Ok h /\
              Py.parse_int (Py.slice (B "#2x5abc") 2 (2 + h)) = None /\
              ValueError (B "x5")
              = ValueError (Py.slice (B "#2x5abc") 2 (2 + h)))).
Proof.
  exact (decode_raises_only_ValueError (B "#2x5abc") (ValueError (B "x5"))
           eq_refl).
Defined.

(** The shape of a correct header for a payload shorter than 10^9
    bytes: the marker, one digit, the decimal text of the length. *)
Lemma encode_shape (P : bytes) :
  Py.len P < 10 ^ 9 ->
  exists hc,
    encode P = x23 :: hc :: str (Py.len P) ++ P /\
    Py.isdigit hc = true /\
    Py.digit_value hc = Py.len (str (Py.len P)).
Proof.
  intros HP. pose proof (len_nonneg P) as H0.
  pose proof (str_length (Py.len P) (conj H0 HP)) as Hlen.
  destruct (str_single_digit _ Hlen) as (hc & Eh & Hd & Hv).
  exists hc. unfold encode. rewrite Eh. now repeat split.
Qed.

(** A well-formed header, the payload it announces, then anything. *)
Lemma decode_framed (hc : byte) (field P trailer : bytes) :
  Py.isdigit hc = true ->
  Py.digit_value hc = Py.len field ->
  field <> [] ->
  all_digits field ->
  digits_value field = Py.len P ->
  decode (x23 :: hc :: field ++ P ++ trailer) = Ok P.
Proof.
  intros Hd Hv Hne Hds Hval.
  rewrite decode_header by assumption.
  rewrite Hval. unfold Py.len.
  rewrite Nat2Z.id, firstn_app, Nat.sub_diag, firstn_all.
  cbn [firstn]. now rewrite List.app_nil_r.
Qed.

(** X2: what follows a correctly framed payload -- the terminator that
    the instrument appends, or anything else -- is dropped: for every
    payload shorter than 10^9 bytes and every trailer, the step returns
    the payload. *)
Theorem decode_drops_trailer (P trailer : bytes) :
  Py.len P < 10 ^ 9 -> decode (encode P ++ trailer) = Ok P.
Proof.
  intros HP. pose proof (len_nonneg P) as H0.
  destruct (encode_shape P HP) as (hc & E & Hd & Hv).
  rewrite E.
  change ((x23 :: hc :: str (Py.len P) ++ P) ++ trailer)
    with (x23 :: hc :: (str (Py.len P) ++ P) ++ trailer).
  rewrite <- app_assoc.
  apply decode_framed; try assumption.
  - apply str_nonempty.
  - apply str_digits.
  - now apply str_value.
Qed.

Lemma decode_drops_trailer_witness :
  decode (encode (B "PNG") ++ [x0a]) = Ok (B "PNG").
Proof.
  apply decode_drops_trailer. reflexivity.
Defined.

(** X3: when the header parses with a declared length [L >= 0], the step
    returns the first [L] bytes of what follows the header, so never more
    than [L] bytes. *)
Theorem decode_at_most_declared_length (response : bytes) (H L : Z) :
  Py.startswith response (B "#") = true ->
  Py.int (Py.slice response 1 2) = Ok H ->
  Py.int (Py.slice response 2 (2 + H)) = Ok L ->
  0 <= L ->
  decode response
  = Ok (firstn (Z.to_nat L) (skipn (Z.to_nat (2 + H)) response)) /\
  Py.len (firstn (Z.to_nat L) (skipn (Z.to_nat (2 + H)) response)) <= L.
Proof.
  intros Hs HH HL HL0.
  pose proof (header_length_range _ _ HH) as Hr.
  split.
  - rewrite decode_eq, Hs, HH. cbn [bind]. rewrite HL. cbn [bind].
    rewrite slice_forward by lia.
    now replace (2 + H + L - (2 + H)) with L by lia.
  - unfold Py.len. rewrite length_firstn. lia.
Qed.

Lemma decode_at_most_declared_length_witness :
  decode (B "#13abcdef")
  = Ok (firstn (Z.to_nat 3) (skipn (Z.to_nat (2 + 1)) (B "#13abcdef"))) /\
  Py.len (firstn (Z.to_nat 3) (skipn (Z.to_nat (2 + 1)) (B "#13abcdef")))
  <= 3.
Proof.
  apply (decode_at_most_declared_length (B "#13abcdef") 1 3);
    [reflexivity | reflexivity | reflexivity | lia].
Defined.

(** ** More on [saveImage] *)

Local Open Scope run_scope.

Section SaveImageMore.

Context {T : Type} `{Resource T}.


Lemma on_OS_set {A} (f : T -> result A * T) (w : World T) (os : T) :
  OS (self w) = Some os ->
  on_OS f w
  = (fst (f os),
     mkWorld (mkSelf (IDN (self w)) (USB_Addr (self w)) (LAN_Addr (self w))
                (Some (snd (f os))))
       (disk w)).
Proof. intros E. unfold on_OS. rewrite E. now destruct (f os). Qed.

Lemma on_OS_disk {A} (f : T -> result A * T) (w : World T) :
  disk (snd (on_OS f w)) = disk w.
Proof.
  unfold on_OS. destruct (OS (self w)) as [os|]; [|reflexivity].
  now destruct (f os).
Qed.


(** X5: when [saveImage] returns, it has sent its command, read one
    reply, decoded it, and added exactly one file, at [location], that
    holds the decoded bytes. *)
Theorem saveImage_success
    (location palette : string) (w : World T) :
  fst (saveImage location palette w) = Ok tt ->
  exists w1 w2 data b,
    on_OS (write (String.append ":DISPlay:DATA? PNG, " palette)) w
    = (Ok tt, w1) /\
    on_OS read_raw w1 = (Ok data, w2) /\
    decode data = Ok b /\
    snd (saveImage location palette w)
    = mkWorld (self w2)
        (mkDisk ((location, b) :: files (disk w)) (open_error (disk w))).
Proof.
  rewrite saveImage_decode. unfold seq, lift.
  set (command := String.append ":DISPlay:DATA? PNG, " palette).
  destruct (on_OS (write command) w) as [[[]|e1] w1] eqn:E1;
    [|discriminate].
  assert (D1 : disk w1 = disk w).
  { pose proof (on_OS_disk (write command) w) as D. now rewrite E1 in D. }
  destruct (on_OS read_raw w1) as [[data|e2] w2] eqn:E2; [|discriminate].
  assert (D2 : disk w2 = disk w1).
  { pose proof (on_OS_disk read_raw w1) as D. now rewrite E2 in D. }
  destruct (decode data) as [b|e3] eqn:Hdec; [|discriminate].
  unfold write_file.
  destruct (open_error (disk w2) location) as [errno|] eqn:Hopen;
    [discriminate|].
  intros _. exists w1, w2, data, b. cbn [snd].
  repeat split; try assumption. now rewrite D2, D1.
Qed.


(** X7: the header is checked after the I/O.  When the reply does not
    decode, [saveImage] raises the [ValueError] of the step, uncaught:
    the command has been sent and the reply consumed, and no file is
    written. *)
Theorem saveImage_bad_header_raises
    (location palette : string) (w : World T) (os os1 os2 : T)
    (data : bytes) (e : exn) :
  OS (self w) = Some os ->
  write (String.append ":DISPlay:DATA? PNG, " palette) os = (Ok tt, os1) ->
  read_raw os1 = (Ok data, os2) ->
  decode data = Raise e ->
  saveImage location palette w
  = (Raise e,
     mkWorld (mkSelf (IDN (self w)) (USB_Addr (self w)) (LAN_Addr (self w))
                (Some os2))
       (disk w)).
Proof.
  intros Hos Hw Hr Hdec.
  rewrite saveImage_decode. unfold seq, lift.
  rewrite (on_OS_set _ _ _ Hos), Hw. cbn [fst snd].
  rewrite (on_OS_set read_raw _ os1) by reflexivity.
  rewrite Hr. cbn [fst snd self IDN USB_Addr LAN_Addr disk].
  now rewrite Hdec.
Qed.

End SaveImageMore.


Lemma saveImage_success_witness :
  exists w1 w2 data b,
    on_OS (write (String.append ":DISPlay:DATA? PNG, " "COLor"))
      (answering_world (B "#15hello"))
    = (Ok tt, w1) /\
    on_OS read_raw w1 = (Ok data, w2) /\
    decode data = Ok b /\
    snd (saveImage "shot.png" "COLor" (answering_world (B "#15hello")))
    = mkWorld (self w2)
        (mkDisk (("shot.png"%string, b)
                   :: files (disk (answering_world (B "#15hello"))))
           (open_error (disk (answering_world (B "#15hello"))))).
Proof.
  apply (saveImage_success "shot.png" "COLor"
           (answering_world (B "#15hello"))).
  reflexivity.
Defined.


Lemma saveImage_bad_header_raises_witness :
  saveImage "shot.png" "COLor" (answering_world (B "#A123"))
  = (Raise (ValueError (B "A")),
     mkWorld
       (mkSelf IDN_text "USB0::10893::918::CN60167508::INSTR"
          "TCPIP0::k-dx1204g-67508::hislip0::INSTR"
          (Some (mkScripted [":DISPlay:DATA? PNG, COLor"%string] [])))
       (mkDisk [] (fun _ => None))).
Proof.
  apply (saveImage_bad_header_raises "shot.png" "COLor"
           (answering_world (B "#A123"))
           (mkScripted [] [ReplyRaw (B "#A123")])
           (mkScripted [":DISPlay:DATA? PNG, COLor"%string]
              [ReplyRaw (B "#A123")])
           (mkScripted [":DISPlay:DATA? PNG, COLor"%string] [])
           (B "#A123") (ValueError (B "A")));
    reflexivity.
Defined.

(** ** More on [IDNCheck] and [__init__] *)

Section ObjectFacts.

Context {T : Type} `{Resource T}.

(** X8: [IDNCheck] answers [1] exactly when a session is set and its
    reply to [*IDN?] equals [self.IDN], character for character; in every
    other case -- another reply, a transport error, no session -- it
    answers [0]. *)
Theorem IDNCheck_detects_iff (w : World T) :
  (fst (IDNCheck w) = Ok 1 <->
   exists os os', OS (self w) = Some os /\
                  query "*IDN?" os = (Ok (IDN (self w)), os')) /\
  (fst (IDNCheck w) = Ok 0 <->
   ~ exists os os', OS (self w) = Some os /\
                    query "*IDN?" os = (Ok (IDN (self w)), os')).
Proof.
  unfold IDNCheck, try_except, seq, on_OS, ret.
  destruct (OS (self w)) as [os|] eqn:Hos.
  - destruct (query "*IDN?" os) as [[r|e] os'] eqn:Hq; cbn [fst self IDN].
    + destruct (String.eqb r (IDN (self w))) eqn:Er; cbn [fst].
      * apply String.eqb_eq in Er. subst r. split; split.
        -- intros _. now exists os, os'.
        -- reflexivity.
        -- discriminate.
        -- intros Hn. exfalso. apply Hn. now exists os, os'.
      * apply String.eqb_neq in Er. split; split.
        -- discriminate.
        -- intros (os0 & os0' & E0 & Hq0). injection E0 as <-.
           rewrite Hq in Hq0. congruence.
        -- intros _ (os0 & os0' & E0 & Hq0). injection E0 as <-.
           rewrite Hq in Hq0. congruence.
        -- reflexivity.
    + split; split.
      * discriminate.
      * intros (os0 & os0' & E0 & Hq0). injection E0 as <-.
        rewrite Hq in Hq0. discriminate.
      * intros _ (os0 & os0' & E0 & Hq0). injection E0 as <-.
        rewrite Hq in Hq0. discriminate.
      * reflexivity.
  - cbn [fst]. split; split.
    + discriminate.
    + intros (os0 & os0' & E0 & _). discriminate.
    + intros _ (os0 & os0' & E0 & _). discriminate.
    + reflexivity.
Qed.


(** X11: an object that [__init__] returns always holds the three fixed
    strings; its session is the one opened on the LAN address for
    ["LAN"], on the USB address for ["USB"], and is unset for any other
    [IO_Conf]. *)
Theorem init_object (IO_Conf : string) (obj : Keysight_DSOX1204G T) :
  init IO_Conf = Ok obj ->
  IDN obj = IDN_text /\
  USB_Addr obj = "USB0::10893::918::CN60167508::INSTR"%string /\
  LAN_Addr obj = "TCPIP0::k-dx1204g-67508::hislip0::INSTR"%string /\
  match OS obj with
  | Some os =>
      (IO_Conf = "LAN"%string /\
       open_resource "TCPIP0::k-dx1204g-67508::hislip0::INSTR" = Ok os) \/
      (IO_Conf = "USB"%string /\
       open_resource "USB0::10893::918::CN60167508::INSTR" = Ok os)
  | None => IO_Conf <> "LAN"%string /\ IO_Conf <> "USB"%string
  end.
Proof.
  unfold init. cbv zeta.
  destruct (String.eqb IO_Conf "LAN") eqn:EL.
  - apply String.eqb_eq in EL. subst IO_Conf.
    destruct (open_resource "TCPIP0::k-dx1204g-67508::hislip0::INSTR")
      as [os|e0] eqn:Eo; cbn [bind]; [|discriminate].
    intros E. injection E as <-. cbn. repeat split. left. now split.
  - apply String.eqb_neq in EL.
    destruct (String.eqb IO_Conf "USB") eqn:EU.
    + apply String.eqb_eq in EU. subst IO_Conf.
      destruct (open_resource "USB0::10893::918::CN60167508::INSTR")
        as [os|e0] eqn:Eo; cbn [bind]; [|discriminate].
      intros E. injection E as <-. cbn. repeat split. right. now split.
    + apply String.eqb_neq in EU.
      intros E. injection E as <-. cbn. repeat split; assumption.
Qed.

(** X15: [IDNCheck] never raises, and it changes nothing but the
    session: it returns [0] or [1], and the files, the paths that cannot
    be opened and the three fixed strings of the object are afterwards
    what they were. *)
Theorem IDNCheck_never_raises (w : World T) :
  exists flag w',
    IDNCheck w = (Ok flag, w') /\
    (flag = 0 \/ flag = 1) /\
    disk w' = disk w /\
    IDN (self w') = IDN (self w) /\
    USB_Addr (self w') = USB_Addr (self w) /\
    LAN_Addr (self w') = LAN_Addr (self w).
Proof.
  unfold IDNCheck, try_except, seq, on_OS, ret.
  destruct (OS (self w)) as [os|].
  - destruct (query "*IDN?" os) as [[r|e] os']; cbn [self IDN].
    + destruct (String.eqb r (IDN (self w)));
        eexists; eexists; (split; [reflexivity|]); cbn; intuition.
    + eexists; eexists; (split; [reflexivity|]); cbn; intuition.
  - eexists; eexists; (split; [reflexivity|]); intuition.
Qed.

End ObjectFacts.

Lemma init_object_witness :
  IDN (mkSelf IDN_text "USB0::10893::918::CN60167508::INSTR"
         "TCPIP0::k-dx1204g-67508::hislip0::INSTR"
         (Some (mkScripted [] [])))
  = IDN_text /\
  USB_Addr (mkSelf IDN_text "USB0::10893::918::CN60167508::INSTR"
              "TCPIP0::k-dx1204g-67508::hislip0::INSTR"
              (Some (mkScripted [] [])))
  = "USB0::10893::918::CN60167508::INSTR"%string /\
  LAN_Addr (mkSelf IDN_text "USB0::10893::918::CN60167508::INSTR"
              "TCPIP0::k-dx1204g-67508::hislip0::INSTR"
              (Some (mkScripted [] [])))
  = "TCPIP0::k-dx1204g-67508::hislip0::INSTR"%string /\
  (("USB"%string = "LAN"%string /\
    open_resource "TCPIP0::k-dx1204g-67508::hislip0::INSTR"
    = Ok (mkScripted [] [])) \/
   ("USB"%string = "USB"%string /\
    open_resource "USB0::10893::918::CN60167508::INSTR"
    = Ok (mkScripted [] []))).
Proof.
  exact (init_object "USB"
           (mkSelf IDN_text "USB0::10893::918::CN60167508::INSTR"
              "TCPIP0::k-dx1204g-67508::hislip0::INSTR"
              (Some (mkScripted [] [])))
           eq_refl).
Defined.

(** ** The text of the commands *)

Lemma list_byte_of_string_app (a c : string) :
  list_byte_of_string (a ++ c)%string
  = list_byte_of_string a ++ list_byte_of_string c.
Proof.
  induction a as [|x a IH]; [reflexivity|].
  change (list_byte_of_string (String x a ++ c)%string)
    with (Ascii.byte_of_ascii x :: list_byte_of_string (a ++ c)%string).
  now rewrite IH.
Qed.

Lemma list_byte_of_string_inj (a c : string) :
  list_byte_of_string a = list_byte_of_string c -> a = c.
Proof.
  intros E. apply (f_equal string_of_list_byte) in E.
  now rewrite !string_of_list_byte_of_string in E.
Qed.

Lemma str_int_bytes (n : Z) :
  list_byte_of_string (str_int n)
  = if n <? 0 then x2d :: str (- n) else str n.
Proof.
  unfold str_int. destruct (n <? 0).
  - rewrite list_byte_of_string_app, list_byte_of_string_of_list_byte.
    reflexivity.
  - apply list_byte_of_string_of_list_byte.
Qed.

Lemma str_inj (a c : Z) : 0 <= a -> 0 <= c -> str a = str c -> a = c.
Proof.
  intros Ha Hc E. rewrite <- (str_value a Ha), <- (str_value c Hc).
  now rewrite E.
Qed.

(** [str()] of an [int] is one-to-one. *)
Lemma str_int_inj (a c : Z) : str_int a = str_int c -> a = c.
Proof.
  intros E. apply (f_equal list_byte_of_string) in E.
  rewrite !str_int_bytes in E.
  destruct (a <? 0) eqn:Ea, (c <? 0) eqn:Ec.
  - injection E as E. apply str_inj in E; lia.
  - exfalso. pose proof (str_digits c) as Hd. rewrite <- E in Hd.
    inversion Hd as [|? ? Hx _]. discriminate Hx.
  - exfalso. pose proof (str_digits a) as Hd. rewrite E in Hd.
    inversion Hd as [|? ? Hx _]. discriminate Hx.
  - apply str_inj in E; lia.
Qed.

(** Its text holds digits and at most a minus sign: no colon, no
    space. *)
Lemma str_int_alphabet (n : Z) (x : byte) :
  In x (list_byte_of_string (str_int n)) ->
  Py.isdigit x = true \/ x = x2d.
Proof.
  rewrite str_int_bytes. intros Hin.
  assert (Hstr : forall m, In x (str m) -> Py.isdigit x = true).
  { intros m Hm. pose proof (str_digits m) as Hd.
    unfold all_digits in Hd. rewrite Forall_forall in Hd. now apply Hd. }
  destruct (n <? 0).
  - destruct Hin as [<-|Hin]; [now right | left; eauto].
  - left; eauto.
Qed.

(** Two texts cut at the first occurrence of a byte agree part by
    part. *)
Lemma split_at_first (x : byte) (u1 u2 r1 r2 : bytes) :
  ~ In x u1 -> ~ In x u2 ->
  u1 ++ x :: r1 = u2 ++ x :: r2 -> u1 = u2 /\ r1 = r2.
Proof.
  revert u2. induction u1 as [|y u1 IH]; intros [|z u2] H1 H2 E.
  - injection E as E. now split.
  - exfalso. injection E as E _. apply H2. left. congruence.
  - exfalso. injection E as E _. apply H1. left. congruence.
  - injection E as -> E.
    destruct (IH u2) as [-> ->]; try assumption; try now split.
    + intros Hin. apply H1. now right.
    + intros Hin. apply H2. now right.
Qed.

(** An [int] followed by a separator that is neither a digit nor a
    minus sign can be read back. *)
Lemma int_then_separator (sep : byte) (a c : Z) (r1 r2 : string) :
  Py.isdigit sep = false -> sep <> x2d ->
  list_byte_of_string (str_int a) ++ sep :: list_byte_of_string r1
  = list_byte_of_string (str_int c) ++ sep :: list_byte_of_string r2 ->
  a = c /\ r1 = r2.
Proof.
  intros Hd Hm E.
  assert (Hout : forall n, ~ In sep (list_byte_of_string (str_int n))).
  { intros n Hin. destruct (str_int_alphabet n sep Hin); congruence. }
  destruct (split_at_first _ _ _ _ _ (Hout a) (Hout c) E) as [E1 E2].
  split.
  - apply str_int_inj. now apply list_byte_of_string_inj.
  - now apply list_byte_of_string_inj.
Qed.

(** The channel number and what follows it can be read back from the
    text of a channel command. *)
Lemma channel_text_inj (a c : Z) (r1 r2 : string) :
  (":CHANnel" ++ str_int a ++ ":" ++ r1)%string
  = (":CHANnel" ++ str_int c ++ ":" ++ r2)%string ->
  a = c /\ r1 = r2.
Proof.
  intros E. apply (f_equal list_byte_of_string) in E.
  rewrite !(list_byte_of_string_app ":CHANnel") in E.
  apply app_inv_head in E.
  rewrite !list_byte_of_string_app in E.
  apply (int_then_separator x3a); [reflexivity | discriminate | exact E].
Qed.

(** An [int], a space and a suffix can be read back too. *)
Lemma int_space_suffix_inj (p : string) (a c : Z) (r1 r2 : string) :
  (p ++ str_int a ++ " " ++ r1)%string = (p ++ str_int c ++ " " ++ r2)%string ->
  a = c /\ r1 = r2.
Proof.
  intros E. apply (f_equal list_byte_of_string) in E.
  rewrite !(list_byte_of_string_app p) in E.
  apply app_inv_head in E.
  rewrite !list_byte_of_string_app in E.
  apply (int_then_separator x20); [reflexivity | discriminate | exact E].
Qed.

Lemma prefix_inj (p r1 r2 : string) :
  (p ++ r1)%string = (p ++ r2)%string -> r1 = r2.
Proof.
  intros E. apply (f_equal list_byte_of_string) in E.
  rewrite !list_byte_of_string_app in E. apply app_inv_head in E.
  now apply list_byte_of_string_inj.
Qed.

Lemma suffix_inj (q r1 r2 : string) :
  (r1 ++ q)%string = (r2 ++ q)%string -> r1 = r2.
Proof.
  intros E. apply (f_equal list_byte_of_string) in E.
  rewrite !list_byte_of_string_app in E. apply app_inv_tail in E.
  now apply list_byte_of_string_inj.
Qed.

Lemma str_bool_inj (a c : bool) : str_bool a = str_bool c -> a = c.
Proof. destruct a, c; (reflexivity || discriminate). Qed.

(** What a scripted session has been sent after one write. *)
Lemma sent_after_write (command : string) (s : Scripted) :
  option_map sent (session_after (on_OS (write command)) s)
  = Some (command :: sent s).
Proof. reflexivity. Qed.

Lemma same_head {A} (a c : A) (l : list A) :
  Some (a :: l) = Some (c :: l) -> a = c.
Proof. congruence. Qed.


(** X13: a channel command can be read back.  For each of the nine
    channel methods, two calls that send the same text to the session
    were given the same channel number and the same other arguments. *)
Theorem channel_commands_read_back
    (s : Scripted) (c1 c2 n1 n2 : Z) (k1 k2 : string) (b1 b2 : bool) :
  let same (m1 m2 : Run (World Scripted) unit) :=
    option_map sent (session_after m1 s)
    = option_map sent (session_after m2 s) in
  (same (channelCoupling c1 k1) (channelCoupling c2 k2) ->
   c1 = c2 /\ k1 = k2) /\
  (same (channelDisplay c1 b1) (channelDisplay c2 b2) ->
   c1 = c2 /\ b1 = b2) /\
  (same (channelInvert c1 b1) (channelInvert c2 b2) ->
   c1 = c2 /\ b1 = b2) /\
  (same (channelLabel c1 k1) (channelLabel c2 k2) ->
   c1 = c2 /\ k1 = k2) /\
  (same (channelOffset c1 n1 k1) (channelOffset c2 n2 k2) ->
   c1 = c2 /\ n1 = n2 /\ k1 = k2) /\
  (same (channelProbeAtt c1 n1) (channelProbeAtt c2 n2) ->
   c1 = c2 /\ n1 = n2) /\
  (same (channelRange c1 n1 k1) (channelRange c2 n2 k2) ->
   c1 = c2 /\ n1 = n2 /\ k1 = k2) /\
  (same (channelScale c1 n1 k1) (channelScale c2 n2 k2) ->
   c1 = c2 /\ n1 = n2 /\ k1 = k2) /\
  (same (channelUnits c1 k1) (channelUnits c2 k2) ->
   c1 = c2 /\ k1 = k2).
Proof.
  cbv zeta beta.
  unfold channelCoupling, channelDisplay, channelInvert, channelLabel,
    channelOffset, channelProbeAtt, channelRange, channelScale,
    channelUnits.
  cbv zeta. rewrite !sent_after_write.
  repeat match goal with |- _ /\ _ => split end;
    intros E; apply same_head in E.
  - destruct (channel_text_inj c1 c2 ("COUPling " ++ k1)
                ("COUPling " ++ k2) E) as [Hc Hr].
    split; [exact Hc|]. now apply prefix_inj in Hr.
  - destruct (channel_text_inj c1 c2 ("DISPLAY " ++ str_bool b1)
                ("DISPLAY " ++ str_bool b2) E) as [Hc Hr].
    split; [exact Hc|]. apply prefix_inj in Hr. now apply str_bool_inj.
  - destruct (channel_text_inj c1 c2 ("INVert " ++ str_bool b1)
                ("INVert " ++ str_bool b2) E) as [Hc Hr].
    split; [exact Hc|]. apply prefix_inj in Hr. now apply str_bool_inj.
  - destruct (channel_text_inj c1 c2 ("LABel '" ++ k1 ++ "'")
                ("LABel '" ++ k2 ++ "'") E) as [Hc Hr].
    split; [exact Hc|]. apply prefix_inj in Hr. now apply suffix_inj in Hr.
  - destruct (channel_text_inj c1 c2
                ("OFFSet " ++ str_int n1 ++ " " ++ k1)
                ("OFFSet " ++ str_int n2 ++ " " ++ k2) E) as [Hc Hr].
    split; [exact Hc|]. now apply int_space_suffix_inj in Hr.
  - destruct (channel_text_inj c1 c2 ("PROBe " ++ str_int n1)
                ("PROBe " ++ str_int n2) E) as [Hc Hr].
    split; [exact Hc|]. apply prefix_inj in Hr. now apply str_int_inj.
  - destruct (channel_text_inj c1 c2
                ("RANGe " ++ str_int n1 ++ " " ++ k1)
                ("RANGe " ++ str_int n2 ++ " " ++ k2) E) as [Hc Hr].
    split; [exact Hc|]. now apply int_space_suffix_inj in Hr.
  - destruct (channel_text_inj c1 c2
                ("SCALe " ++ str_int n1 ++ " " ++ k1)
                ("SCALe " ++ str_int n2 ++ " " ++ k2) E) as [Hc Hr].
    split; [exact Hc|]. now apply int_space_suffix_inj in Hr.
  - destruct (channel_text_inj c1 c2 ("UNITs " ++ k1)
                ("UNITs " ++ k2) E) as [Hc Hr].
    split; [exact Hc|]. now apply prefix_inj in Hr.
Qed.

(** ** The methods as a family *)

Section MethodFamily.

Context {T : Type} `{Resource T}.
Context {F : Type} (float : string -> result F) (str_float : F -> string).
Context (close_session : T -> result unit * T).

Lemma seq_raises {W A C} (m : Run W A) (k : A -> Run W C) (w : W) (e : exn) :
  fst (m w) = Raise e -> fst (seq m k w) = Raise e.
Proof.
  unfold seq. destruct (m w) as [[a|e'] w']; cbn [fst]; congruence.
Qed.



(** X12: no method but [IDNCheck] catches anything.  When the session
    refuses every write with the exception [e], [saveImage] and every
    command and measurement method raise [e]. *)
Theorem transport_error_propagates
    (w : World T) (os : T) (e : exn)
    (n1 n2 : Z) (s1 s2 : string) (b : bool) (v : F) :
  OS (self w) = Some os ->
  (forall command, fst (write command os) = Raise e) ->
  fst (saveImage s1 s2 w) = Raise e /\
  Forall (fun m : Run (World T) unit => fst (m w) = Raise e)
    [single; run; stop;
     channelCoupling n1 s1; channelDisplay n1 b; channelInvert n1 b;
     channelLabel n1 s1; channelOffset n1 n2 s1; channelProbeAtt n1 n2;
     channelRange n1 n2 s1; channelScale n1 n2 s1; channelUnits n1 s1;
     displayLabel s1; measClearAll;
     timeScale str_float v; triggerHoldOFF str_float v; triggerMode s1;
     triggerNoiseReject b; triggerlevel str_float v s1;
     triggerSlope s1; triggerSource s1;
     WGenOutput b; WGenFrequency str_float v; WGenFunction s1;
     WGenPulseWidth str_float v; WGenRampSymmetry str_float v;
     WGenSquareDCycle str_float v; WGenAmplitude str_float v;
     WGenOffset str_float v] /\
  Forall (fun m : Run (World T) F => fst (m w) = Raise e)
    [measDutyCycle float s1; measFallTime float s1;
     measRiseTime float s1; measFrequency float s1;
     measAmplitude float s1; measAverage float s1;
     measVBase float s1; measVTop float s1; measVMax float s1;
     measVMin float s1; measVPP float s1; measVrms float s1;
     measXMax float s1; measXMin float s1].
Proof.
  intros Hos Hdown.
  assert (Hw : forall command, fst (on_OS (write command) w) = Raise e).
  { intros command. rewrite (on_OS_set _ _ _ Hos). apply Hdown. }
  split; [apply seq_raises, Hw|].
  split.
  - repeat constructor; apply Hw.
  - repeat constructor; apply seq_raises, Hw.
Qed.

End MethodFamily.


Lemma transport_error_propagates_witness :
  fst (saveImage "shot.png" "COLor"
         (mkWorld (mkSelf IDN_text "" "" (Some (dead (-1073807194))))
            (mkDisk [] (fun _ => None))))
  = Raise (VisaIOError (-1073807194)).
Proof.
  refine (proj1 (transport_error_propagates (T := DeadLink) (F := Z)
                   (fun _ => Ok 0) (fun _ => "0"%string)
                   (mkWorld (mkSelf IDN_text "" ""
                               (Some (dead (-1073807194))))
                      (mkDisk [] (fun _ => None)))
                   (dead (-1073807194)) (VisaIOError (-1073807194))
                   1 0 "shot.png" "COLor" true 0 eq_refl _)).
  intros command. reflexivity.
Defined.

(** X14: each of the fourteen measurement methods sends the set form
    of its command and then the query form -- the same mnemonic with a
    question mark -- with the same source, takes one reply off the
    session, and returns [float()] of the reply text or raises the
    transport's error. *)
Theorem measurements_install_then_query
    {F : Type} (float : string -> result F) (source : string)
    (s : Scripted) :
  Forall
    (fun '(m, mnemonic) =>
       option_map sent (session_after m s)
       = Some ((mnemonic ++ "? " ++ source)%string
                 :: (mnemonic ++ " " ++ source)%string :: sent s) /\
       option_map pending (session_after m s) = Some (tl (pending s)) /\
       fst (m (scripted_world s (mkDisk [] (fun _ => None))))
       = match pending s with
         | ReplyText t :: _ => float t
         | ReplyRaw raw :: _ => float (string_of_list_byte raw)
         | ReplyError st :: _ => Raise (VisaIOError st)
         | [] => Raise (VisaIOError VI_ERROR_TMO)
         end)
    [(measDutyCycle float source, ":MEASure:DUTYcycle"%string);
     (measFallTime float source, ":MEASure:FALLtime"%string);
     (measRiseTime float source, ":MEASure:Risetime"%string);
     (measFrequency float source, ":MEASure:FREQuency"%string);
     (measAmplitude float source, ":MEASure:VAMPlitude"%string);
     (measAverage float source, ":MEASure:VAVerage"%string);
     (measVBase float source, ":MEASure:VBASe"%string);
     (measVTop float source, ":MEASure:VTOP"%string);
     (measVMax float source, ":MEASure:VMAX"%string);
     (measVMin float source, ":MEASure:VMIN"%string);
     (measVPP float source, ":MEASure:VPP"%string);
     (measVrms float source, ":MEASure:VRMS"%string);
     (measXMax float source, ":MEASure:XMAX"%string);
     (measXMin float source, ":MEASure:XMIN"%string)].
Proof.
  destruct s as [snt [|[t|raw|st] rest]];
    repeat constructor.
Qed.

(** ** Concrete runs of the command methods *)

Example str_int_ex1 : str_int (-12) = "-12"%string.
Proof. reflexivity. Qed.
Example str_int_ex2 : str_int 0 = "0"%string.
Proof. reflexivity. Qed.
Example channelCoupling_ex :
  option_map sent (session_after (channelCoupling 1 "AC") (mkScripted [] []))
  = Some [":CHANnel1:COUPling AC"%string].
Proof. reflexivity. Qed.
Example channelDisplay_ex :
  option_map sent (session_after (channelDisplay 2 true) (mkScripted [] []))
  = Some [":CHANnel2:DISPLAY True"%string].
Proof. reflexivity. Qed.
Example channelLabel_ex :
  option_map sent (session_after (channelLabel 3 "CLK") (mkScripted [] []))
  = Some [":CHANnel3:LABel 'CLK'"%string].
Proof. reflexivity. Qed.
Example channelOffset_ex :
  option_map sent
    (session_after (channelOffset 4 (-250) "mV") (mkScripted [] []))
  = Some [":CHANnel4:OFFSet -250 mV"%string].
Proof. reflexivity. Qed.
Example measVPP_ex :
  option_map sent
    (session_after (measVPP (fun t => Ok t) "CHANnel1")
       (mkScripted [] [ReplyText "+1.25E+00"]))
  = Some [":MEASure:VPP? CHANnel1"%string; ":MEASure:VPP CHANnel1"%string].
Proof. reflexivity. Qed.
